(** * istio-csr: the dynamic istiod certificate provisioner

    A shallow embedding of [pkg/istiodcert/worker.go] and the properties of
    its issuer guard, its DNS-name computation and its reconcile loop.

    Conventions of the embedding:
    - Go strings are [string]; Go slices are [list] (a nil slice and an empty
      slice are the same list, as they are for [len], [range] and [append]);
    - a Go pointer that may be nil is an [option];
    - a Go [(value, error)] result is a sum, [inl] for the value and [inr]
      for the non-nil error; a lone [error] result is an [option error];
    - the cert-manager client is an interface, here a type class whose
      methods thread the client (and the store behind it) explicitly;
    - the reconcile channel is the sequence of events sent on it so far; a
      send on it returns only when the dispatcher receives, which
      [handleNewIssuerOn] and [StartOn] make explicit;
    - the mutex and the logger have no sequential meaning and are left out:
      every operation below is one critical section. *)

From Stdlib Require Import String Ascii List ZArith Bool Lia.
Import ListNotations.

Local Open Scope string_scope.
Local Open Scope list_scope.

Notation "s1 +++ s2" := (String.append s1 s2)
  (at level 60, right associativity).

(** ** Formatting *)

(** [fmt.Sprintf] restricted to what the source uses: the verb [%s] applied
    to string operands.  Every other character of the format is copied.  A
    verb without operand prints Go's marker for a missing operand; the
    source always passes as many operands as the format has verbs, and
    operands left over are not printed here. *)
Fixpoint Sprintf (format : string) (args : list string) : string :=
  match format with
  | EmptyString => EmptyString
  | String c rest =>
      match rest with
      | String c' rest' =>
          if (Ascii.eqb c "%" && Ascii.eqb c' "s")%bool then
            match args with
            | a :: args' => a +++ Sprintf rest' args'
            | [] => "%!s(MISSING)" +++ Sprintf rest' []
            end
          else String c (Sprintf rest args)
      | EmptyString => String c EmptyString
      end
  end.

(** ** Errors *)

(** [metav1.StatusReason] is a string type; these are the reasons that
    API machinery defines, the unknown reason being the empty string. *)
Definition StatusReason : Type := string.

Definition StatusReasonUnknown : StatusReason := "".
Definition StatusReasonUnauthorized : StatusReason := "Unauthorized".
Definition StatusReasonForbidden : StatusReason := "Forbidden".
Definition StatusReasonNotFound : StatusReason := "NotFound".
Definition StatusReasonAlreadyExists : StatusReason := "AlreadyExists".
Definition StatusReasonConflict : StatusReason := "Conflict".
Definition StatusReasonGone : StatusReason := "Gone".
Definition StatusReasonInvalid : StatusReason := "Invalid".
Definition StatusReasonServerTimeout : StatusReason := "ServerTimeout".
Definition StatusReasonTimeout : StatusReason := "Timeout".
Definition StatusReasonTooManyRequests : StatusReason := "TooManyRequests".
Definition StatusReasonBadRequest : StatusReason := "BadRequest".
Definition StatusReasonMethodNotAllowed : StatusReason := "MethodNotAllowed".
Definition StatusReasonNotAcceptable : StatusReason := "NotAcceptable".
Definition StatusReasonRequestEntityTooLarge : StatusReason := "RequestEntityTooLarge".
Definition StatusReasonUnsupportedMediaType : StatusReason := "UnsupportedMediaType".
Definition StatusReasonInternalError : StatusReason := "InternalError".
Definition StatusReasonExpired : StatusReason := "Expired".
Definition StatusReasonServiceUnavailable : StatusReason := "ServiceUnavailable".

(** The reasons [apierrors] knows; the unknown reason is not one of them. *)
Definition knownReasons : list StatusReason :=
  [ StatusReasonUnauthorized; StatusReasonForbidden; StatusReasonNotFound;
    StatusReasonAlreadyExists; StatusReasonConflict; StatusReasonGone;
    StatusReasonInvalid; StatusReasonServerTimeout; StatusReasonTimeout;
    StatusReasonTooManyRequests; StatusReasonBadRequest;
    StatusReasonMethodNotAllowed; StatusReasonNotAcceptable;
    StatusReasonRequestEntityTooLarge; StatusReasonUnsupportedMediaType;
    StatusReasonInternalError; StatusReasonExpired;
    StatusReasonServiceUnavailable ].

(** A Go [error]: an API status error, with its reason and its HTTP code; a
    plain message, as [fmt.Errorf] builds it with [%s]; or an error that
    wraps another one under a message of its own. *)
Inductive error : Type :=
| StatusError (reason : StatusReason) (code : Z) (message : string)
| errorString (message : string)
| wrapError (message : string) (inner : error).

(** [err.Error()] *)
Definition Error (err : error) : string :=
  match err with
  | StatusError _ _ m => m
  | errorString m => m
  | wrapError m _ => m
  end.

(** [reasonAndCodeForError] of [apierrors]: the reason and the code of the
    first API status found in the chain of wrapped errors, the unknown
    reason and code 0 when there is none. *)
Fixpoint reasonAndCodeForError (err : error) : StatusReason * Z :=
  match err with
  | StatusError reason code _ => (reason, code)
  | errorString _ => (StatusReasonUnknown, 0%Z)
  | wrapError _ inner => reasonAndCodeForError inner
  end.

(** [apierrors.IsNotFound]: the reason is not-found, or the reason is none
    of the known ones and the code is 404. *)
Definition IsNotFound (err : error) : bool :=
  let '(reason, code) := reasonAndCodeForError err in
  if String.eqb reason StatusReasonNotFound then true
  else if (negb (existsb (String.eqb reason) knownReasons) && (code =? 404)%Z)%bool
       then true
       else false.

(** [fmt.Errorf] with string operands (an error operand is printed through
    its [Error] method by [%s]). *)
Definition Errorf (format : string) (args : list string) : error :=
  errorString (Sprintf format args).

(** ** Data model *)

(** [cmmeta.ObjectReference] *)
Record ObjectReference : Type := mkObjectReference {
  RefName : string;
  RefKind : string;
  RefGroup : string
}.

(** [metav1.ObjectMeta]: the two fields the worker writes, and the resource
    version as a representative of what the server populates. *)
Record ObjectMeta : Type := mkObjectMeta {
  Name : string;
  Namespace : string;
  ResourceVersion : string
}.

(** [cmapi.CertificatePrivateKey] *)
Record CertificatePrivateKey : Type := mkCertificatePrivateKey {
  RotationPolicy : string;
  Algorithm : string;
  Size : Z
}.

(** [cmapi.RotationPolicyAlways] *)
Definition RotationPolicyAlways : string := "Always".

(** [cmapi.CertificateSpec], with the fields the worker's composite literal
    names.  Durations are nanosecond counts. *)
Record CertificateSpec : Type := mkCertificateSpec {
  CommonName : string;
  DNSNames : list string;
  URIs : list string;
  SecretName : string;
  Duration : option Z;
  RenewBefore : option Z;
  PrivateKey : option CertificatePrivateKey;
  RevisionHistoryLimit : option Z;
  IssuerRef : ObjectReference
}.

(** [cmapi.Certificate] *)
Record Certificate : Type := mkCertificate {
  Meta : ObjectMeta;
  Spec : CertificateSpec
}.

(** Zero values of the structs. *)
Definition zeroObjectReference : ObjectReference :=
  {| RefName := ""; RefKind := ""; RefGroup := "" |}.

Definition zeroCertificateSpec : CertificateSpec :=
  {| CommonName := ""; DNSNames := []; URIs := []; SecretName := "";
     Duration := None; RenewBefore := None; PrivateKey := None;
     RevisionHistoryLimit := None; IssuerRef := zeroObjectReference |}.

(** [cert.Spec = spec] *)
Definition setSpec (cert : Certificate) (spec : CertificateSpec) : Certificate :=
  {| Meta := Meta cert; Spec := spec |}.

(** [Options] of the package, with the fields the worker reads. *)
Record Options : Type := mkOptions {
  CertificateName : string;
  CertificateNamespace : string;
  IstioRevisions : list string;
  AdditionalDNSNames : list string;
  OptDuration : Z;
  OptRenewBefore : Z;
  CMKeyAlgorithm : string;
  KeySize : Z
}.

(** [event.GenericEvent] *)
Record GenericEvent : Type := mkGenericEvent {
  Object : Certificate
}.

(** [ctrl.Request], a [types.NamespacedName]. *)
Record Request : Type := mkRequest {
  ReqNamespace : string;
  ReqName : string
}.

(** [ctrl.Result] *)
Record Result : Type := mkResult {
  Requeue : bool;
  RequeueAfter : Z
}.

Definition zeroResult : Result := {| Requeue := false; RequeueAfter := 0 |}.

(** ** The DNS names of the istiod certificate *)

(** [makeDNSNamesFromRevisions]: the loop appends one name per revision to
    the accumulator [dnsNames], which starts as the nil slice. *)
Definition makeDNSNamesFromRevisions (namespace : string) (istioRevisions : list string)
  : string * list string :=
  let istioRevisions :=
    if (length istioRevisions =? 0)%nat then ["default"] else istioRevisions in
  let defaultSAN := Sprintf "istiod.%s.svc" [namespace] in
  let dnsNames :=
    fold_left
      (fun dnsNames revision =>
         if String.eqb revision "default"
         then dnsNames ++ [defaultSAN]
         else dnsNames ++ [Sprintf "istiod%s.%s.svc" [revision; namespace]])
      istioRevisions [] in
  (defaultSAN, dnsNames).

(** ** The certificate client *)

(** [cmclient.CertificateInterface]: the methods the worker calls, and
    [Patch] (a name, a patch type and the patch body), which it does not.  A
    client is bound to one namespace when it is built
    ([Certificates(namespace)]), so [Get] takes a name only.  Each method
    returns the client after the call together with the call's result. *)
Class CertificateInterface (Client : Type) : Type := {
  Get : Client -> string -> Client * (Certificate + error);
  Create : Client -> Certificate -> Client * (Certificate + error);
  Update : Client -> Certificate -> Client * (Certificate + error);
  Patch : Client -> string -> string -> string -> Client * (Certificate + error)
}.

(** The error of a [(value, error)] result, [nil] on success. *)
Definition errOf {A : Type} (r : A + error) : option error :=
  match r with
  | inl _ => None
  | inr err => Some err
  end.

(** [certmanager.IssuerChangeNotifier]: the initial issuer and the values
    that will arrive on the subscription channel, oldest first. *)
Record IssuerChangeNotifier : Type := mkIssuerChangeNotifier {
  InitialIssuer : option ObjectReference;
  SubscribeIssuerChange : list (option ObjectReference)
}.

(** ** The provisioner *)

Record DynamicIstiodCertProvisioner (Client : Type) : Type := mkDICP {
  certManagerClient : Client;
  opts : Options;
  initialIssuerRef : option ObjectReference;
  issuerRef : option ObjectReference;
  issuerChangeChan : list (option ObjectReference);
  reconcileChan : list GenericEvent;
  trustDomain : string
}.

Arguments mkDICP {Client}.
Arguments certManagerClient {Client}.
Arguments opts {Client}.
Arguments initialIssuerRef {Client}.
Arguments issuerRef {Client}.
Arguments issuerChangeChan {Client}.
Arguments reconcileChan {Client}.
Arguments trustDomain {Client}.

Section Provisioner.

Context {Client : Type}.

Local Abbreviation DICP := (DynamicIstiodCertProvisioner Client).

(** Field assignments. *)
Definition setIssuerRef (dicp : DICP) (ref : option ObjectReference) : DICP :=
  mkDICP (certManagerClient dicp) (opts dicp) (initialIssuerRef dicp) ref
         (issuerChangeChan dicp) (reconcileChan dicp) (trustDomain dicp).

Definition setClient (dicp : DICP) (client : Client) : DICP :=
  mkDICP client (opts dicp) (initialIssuerRef dicp) (issuerRef dicp)
         (issuerChangeChan dicp) (reconcileChan dicp) (trustDomain dicp).

Definition setIssuerChangeChan (dicp : DICP) (pending : list (option ObjectReference)) : DICP :=
  mkDICP (certManagerClient dicp) (opts dicp) (initialIssuerRef dicp) (issuerRef dicp)
         pending (reconcileChan dicp) (trustDomain dicp).

(** [dicp.reconcileChan <- ev] *)
Definition send (dicp : DICP) (ev : GenericEvent) : DICP :=
  mkDICP (certManagerClient dicp) (opts dicp) (initialIssuerRef dicp) (issuerRef dicp)
         (issuerChangeChan dicp) (reconcileChan dicp ++ [ev]) (trustDomain dicp).

(** [New].  [newForConfig] stands for [cmversioned.NewForConfig] followed,
    on success, by [CertmanagerV1().Certificates]. *)
Definition New {RestConfig : Type}
    (newForConfig : RestConfig -> (string -> Client) + error)
    (restConfig : RestConfig) (opts : Options)
    (issuerChangeNotifier : IssuerChangeNotifier) (trustDomain : string)
  : DICP + error :=
  match newForConfig restConfig with
  | inr err => inr (Errorf "failed to build cert-manager client: %s" [Error err])
  | inl cmClient =>
      let initialIssuerRef := InitialIssuer issuerChangeNotifier in
      inl {| certManagerClient := cmClient (CertificateNamespace opts);
             opts := opts;
             initialIssuerRef := initialIssuerRef;
             issuerRef := initialIssuerRef;
             issuerChangeChan := SubscribeIssuerChange issuerChangeNotifier;
             reconcileChan := [];
             trustDomain := trustDomain |}
  end.

(** [handleNewIssuer] *)
Definition handleNewIssuer (dicp : DICP) (issuerRef : option ObjectReference) : DICP :=
  match issuerRef, initialIssuerRef dicp with
  | None, Some _ =>
      (* don't blank out the issuer if there's an initial ref *)
      setIssuerRef dicp (initialIssuerRef dicp)
  | _, _ =>
      let dicp := setIssuerRef dicp issuerRef in
      send dicp
        {| Object :=
             {| Meta := {| Name := CertificateName (opts dicp);
                           Namespace := CertificateNamespace (opts dicp);
                           ResourceVersion := "" |};
                Spec := zeroCertificateSpec |} |}
  end.

(** [Start], for the runs in which every send of [handleNewIssuer] is
    accepted, so that every call of it returns ([StartOn] below is the loop
    with sends that may never be accepted).  The [select] is resolved from
    outside: [received] counts the notifications taken from the channel
    before the context is done.  When the channel has nothing more to
    deliver the loop waits for the context.  The result is the returned
    error, nil. *)
Fixpoint Start (received : nat) (dicp : DICP) : DICP * option error :=
  match received with
  | O => (dicp, None)
  | S received' =>
      match issuerChangeChan dicp with
      | [] => (dicp, None)
      | newIssuer :: pending =>
          Start received' (handleNewIssuer (setIssuerChangeChan dicp pending) newIssuer)
      end
  end.

(** [handleNewIssuer] with its send on the unbuffered reconcile channel
    made explicit: the send returns only when the dispatcher receives the
    event, and [accepted] counts the events the dispatcher will still
    receive.  The result is the provisioner and, when the call returns, the
    count that is left; [None] is the call that stays in its send for ever,
    the active reference already assigned. *)
Definition handleNewIssuerOn (accepted : nat) (dicp : DICP)
    (issuerRef : option ObjectReference) : DICP * option nat :=
  match issuerRef, initialIssuerRef dicp with
  | None, Some _ =>
      (setIssuerRef dicp (initialIssuerRef dicp), Some accepted)
  | _, _ =>
      let dicp := setIssuerRef dicp issuerRef in
      match accepted with
      | O => (dicp, None)
      | S accepted' =>
          (send dicp
             {| Object :=
                  {| Meta := {| Name := CertificateName (opts dicp);
                                Namespace := CertificateNamespace (opts dicp);
                                ResourceVersion := "" |};
                     Spec := zeroCertificateSpec |} |},
           Some accepted')
      end
  end.

(** How a run of [Start] ends: it returns its error, or it never returns. *)
Inductive StartResult : Type :=
| StartReturned (err : option error)
| StartBlocked.

(** [Start] over [handleNewIssuerOn]: the loop looks at the context only
    between two notifications, so a call that stays in its send keeps the
    loop from returning, whatever the context does. *)
Fixpoint StartOn (accepted received : nat) (dicp : DICP) : DICP * StartResult :=
  match received with
  | O => (dicp, StartReturned None)
  | S received' =>
      match issuerChangeChan dicp with
      | [] => (dicp, StartReturned None)
      | newIssuer :: pending =>
          match handleNewIssuerOn accepted (setIssuerChangeChan dicp pending) newIssuer with
          | (dicp', Some accepted') => StartOn accepted' received' dicp'
          | (dicp', None) => (dicp', StartBlocked)
          end
      end
  end.

(** [NeedLeaderElection] *)
Definition NeedLeaderElection (dicp : DICP) : bool := true.

(** The predicate that [AddControllersToManager] registers for the
    certificate watch. *)
Definition watchPredicate (dicp : DICP) (obj : Certificate) : bool :=
  (String.eqb (Name (Meta obj)) (CertificateName (opts dicp))
   && String.eqb (Namespace (Meta obj)) (CertificateNamespace (opts dicp)))%bool.

(** The map function that [AddControllersToManager] registers for the
    reconcile channel. *)
Definition channelMapFunc (dicp : DICP) (obj : Certificate) : list Request :=
  [ {| ReqNamespace := CertificateNamespace (opts dicp);
       ReqName := CertificateName (opts dicp) |} ].

Context `{CertificateInterface Client}.

(** [Reconcile] *)
Definition Reconcile (dicp : DICP) (req : Request) : DICP * (Result * option error) :=
  match issuerRef dicp with
  | None => (dicp, (zeroResult, None))
  | Some ref =>
      let spiffeID :=
        Sprintf "spiffe://%s/ns/%s/sa/istiod-service-account"
                [trustDomain dicp; ReqNamespace req] in
      let '(commonName, dnsNames) :=
        makeDNSNamesFromRevisions (ReqNamespace req) (IstioRevisions (opts dicp)) in
      let dnsNames :=
        if (0 <? length (AdditionalDNSNames (opts dicp)))%nat
        then dnsNames ++ AdditionalDNSNames (opts dicp)
        else dnsNames in
      let desiredSpec :=
        {| CommonName := commonName;
           DNSNames := dnsNames;
           URIs := [spiffeID];
           SecretName := "istiod-tls";
           Duration := Some (OptDuration (opts dicp));
           RenewBefore := Some (OptRenewBefore (opts dicp));
           PrivateKey :=
             Some {| RotationPolicy := RotationPolicyAlways;
                     Algorithm := CMKeyAlgorithm (opts dicp);
                     Size := KeySize (opts dicp) |};
           RevisionHistoryLimit := Some 1%Z;
           IssuerRef := ref |} in
      let '(client, got) := Get (certManagerClient dicp) (ReqName req) in
      match got with
      | inr err =>
          if negb (IsNotFound err) then
            (setClient dicp client,
             (zeroResult, Some (Errorf "failed to fetch cert: %s" [Error err])))
          else
            let cert :=
              {| Meta := {| Name := ReqName req;
                            Namespace := ReqNamespace req;
                            ResourceVersion := "" |};
                 Spec := desiredSpec |} in
            let '(client, created) := Create client cert in
            (setClient dicp client, (zeroResult, errOf created))
      | inl cert =>
          let cert := setSpec cert desiredSpec in
          let '(client, updated) := Update client cert in
          (setClient dicp client, (zeroResult, errOf updated))
      end
  end.

End Provisioner.

(** ** Observing the calls made on a client *)

(** A call on the certificate client. *)
Inductive StoreCall : Type :=
| CallGet (name : string)
| CallCreate (cert : Certificate)
| CallUpdate (cert : Certificate)
| CallPatch (name : string) (patchType : string) (data : string).

(** A client that forwards every call to the client it wraps and keeps the
    list of the calls made, oldest first. *)
Record Recorder (Client : Type) : Type := mkRecorder {
  inner : Client;
  calls : list StoreCall
}.

Arguments mkRecorder {Client}.
Arguments inner {Client}.
Arguments calls {Client}.

Definition recorded {Client A : Type} (r : Recorder Client) (call : StoreCall)
    (res : Client * A) : Recorder Client * A :=
  ({| inner := fst res; calls := calls r ++ [call] |}, snd res).

#[export] Instance Recorder_CertificateInterface
    {Client : Type} `{CertificateInterface Client}
  : CertificateInterface (Recorder Client) := {
  Get r name := recorded r (CallGet name) (Get (inner r) name);
  Create r cert := recorded r (CallCreate cert) (Create (inner r) cert);
  Update r cert := recorded r (CallUpdate cert) (Update (inner r) cert);
  Patch r name pt data := recorded r (CallPatch name pt data) (Patch (inner r) name pt data)
}.

(** The provisioner with its client wrapped in a recorder that has seen no
    call yet. *)
Definition recording {Client : Type} (dicp : DynamicIstiodCertProvisioner Client)
  : DynamicIstiodCertProvisioner (Recorder Client) :=
  mkDICP {| inner := certManagerClient dicp; calls := [] |}
         (opts dicp) (initialIssuerRef dicp) (issuerRef dicp)
         (issuerChangeChan dicp) (reconcileChan dicp) (trustDomain dicp).

(** The calls one [Reconcile] makes on the client, in order. *)
Definition storeCalls {Client : Type} `{CertificateInterface Client}
    (dicp : DynamicIstiodCertProvisioner Client) (req : Request) : list StoreCall :=
  calls (certManagerClient (fst (Reconcile (recording dicp) req))).

(** The certificate a call writes, if it is a create or an update. *)
Definition written (call : StoreCall) : option Certificate :=
  match call with
  | CallCreate cert | CallUpdate cert => Some cert
  | CallGet _ | CallPatch _ _ _ => None
  end.

Definition isPatch (call : StoreCall) : bool :=
  match call with
  | CallPatch _ _ _ => true
  | _ => false
  end.

(** ** An in-memory client *)

(** A client over an in-memory list of certificates of one namespace, in the
    manner of a fake clientset: [fakeGetError], when set, is the error every
    [Get] fails with. *)
Record FakeCertificates : Type := mkFakeCertificates {
  fakeNamespace : string;
  fakeObjects : list Certificate;
  fakeGetError : option error
}.

Definition hasName (name : string) (cert : Certificate) : bool :=
  String.eqb (Name (Meta cert)) name.

Definition fakeNotFound : error :=
  StatusError StatusReasonNotFound 404 "certificate not found".

Definition fakeGet (c : FakeCertificates) (name : string)
  : FakeCertificates * (Certificate + error) :=
  match fakeGetError c with
  | Some err => (c, inr err)
  | None =>
      match find (hasName name) (fakeObjects c) with
      | Some cert => (c, inl cert)
      | None => (c, inr fakeNotFound)
      end
  end.

Definition fakeCreate (c : FakeCertificates) (cert : Certificate)
  : FakeCertificates * (Certificate + error) :=
  if existsb (hasName (Name (Meta cert))) (fakeObjects c)
  then (c, inr (StatusError StatusReasonAlreadyExists 409 "certificate already exists"))
  else ({| fakeNamespace := fakeNamespace c;
           fakeObjects := fakeObjects c ++ [cert];
           fakeGetError := fakeGetError c |}, inl cert).

Definition fakeUpdate (c : FakeCertificates) (cert : Certificate)
  : FakeCertificates * (Certificate + error) :=
  if existsb (hasName (Name (Meta cert))) (fakeObjects c)
  then ({| fakeNamespace := fakeNamespace c;
           fakeObjects :=
             map (fun old => if hasName (Name (Meta cert)) old then cert else old)
                 (fakeObjects c);
           fakeGetError := fakeGetError c |}, inl cert)
  else (c, inr fakeNotFound).

Definition fakePatch (c : FakeCertificates) (name patchType data : string)
  : FakeCertificates * (Certificate + error) :=
  match find (hasName name) (fakeObjects c) with
  | Some cert => (c, inl cert)
  | None => (c, inr fakeNotFound)
  end.

#[export] Instance Fake_CertificateInterface : CertificateInterface FakeCertificates := {
  Get := fakeGet;
  Create := fakeCreate;
  Update := fakeUpdate;
  Patch := fakePatch
}.

(** The clientset constructor of the in-memory client: it fails on the
    configuration [false]. *)
Definition fakeNewForConfig (ok : bool) : (string -> FakeCertificates) + error :=
  if ok
  then inl (fun ns => {| fakeNamespace := ns; fakeObjects := []; fakeGetError := None |})
  else inr (errorString "invalid configuration").

(** A client that reads through the client it wraps and refuses every
    write, as a store does for an identity without write permission. *)
Record ReadOnly (Client : Type) : Type := mkReadOnly {
  readable : Client
}.

Arguments mkReadOnly {Client}.
Arguments readable {Client}.

Definition forbidden : error :=
  StatusError StatusReasonForbidden 403 "certificates is forbidden".

#[export] Instance ReadOnly_CertificateInterface
    {Client : Type} `{CertificateInterface Client}
  : CertificateInterface (ReadOnly Client) := {
  Get r name :=
    let res := Get (readable r) name in ({| readable := fst res |}, snd res);
  Create r cert := (r, inr forbidden);
  Update r cert := (r, inr forbidden);
  Patch r name pt data := (r, inr forbidden)
}.

(** ** Reference definitions for the statements *)

(** The DNS name of one revision, as the specification words it. *)
Definition dnsNameOfRevision (ns revision : string) : string :=
  if String.eqb revision "default"
  then "istiod." +++ ns +++ ".svc"
  else "istiod" +++ revision +++ "." +++ ns +++ ".svc".

(** An empty list of revisions stands for the default revision alone. *)
Definition revisionsOrDefault (revisions : list string) : list string :=
  match revisions with
  | [] => ["default"]
  | _ :: _ => revisions
  end.

(** The SPIFFE identity of istiod in a namespace. *)
Definition spiffeURI (trustDomain ns : string) : string :=
  "spiffe://" +++ trustDomain +++ "/ns/" +++ ns +++ "/sa/istiod-service-account".

(** The desired specification as a function of the issuer, the options, the
    trust domain and the namespace. *)
Definition desiredSpecOf (ref : ObjectReference) (o : Options)
    (trustDomain ns : string) : CertificateSpec :=
  {| CommonName := "istiod." +++ ns +++ ".svc";
     DNSNames :=
       map (dnsNameOfRevision ns) (revisionsOrDefault (IstioRevisions o))
       ++ AdditionalDNSNames o;
     URIs := [spiffeURI trustDomain ns];
     SecretName := "istiod-tls";
     Duration := Some (OptDuration o);
     RenewBefore := Some (OptRenewBefore o);
     PrivateKey :=
       Some {| RotationPolicy := "Always";
               Algorithm := CMKeyAlgorithm o;
               Size := KeySize o |};
     RevisionHistoryLimit := Some 1%Z;
     IssuerRef := ref |}.

(** The certificate of a request with the desired specification and no
    other content. *)
Definition newCert {Client : Type} (dicp : DynamicIstiodCertProvisioner Client)
    (req : Request) (ref : ObjectReference) : Certificate :=
  {| Meta := {| Name := ReqName req; Namespace := ReqNamespace req;
                ResourceVersion := "" |};
     Spec := desiredSpecOf ref (opts dicp) (trustDomain dicp) (ReqNamespace req) |}.

(** The provisioner configured for another certificate identity, client
    and everything else unchanged. *)
Definition withIdentity {Client : Type} (dicp : DynamicIstiodCertProvisioner Client)
    (name ns : string) : DynamicIstiodCertProvisioner Client :=
  mkDICP (certManagerClient dicp)
         {| CertificateName := name;
            CertificateNamespace := ns;
            IstioRevisions := IstioRevisions (opts dicp);
            AdditionalDNSNames := AdditionalDNSNames (opts dicp);
            OptDuration := OptDuration (opts dicp);
            OptRenewBefore := OptRenewBefore (opts dicp);
            CMKeyAlgorithm := CMKeyAlgorithm (opts dicp);
            KeySize := KeySize (opts dicp) |}
         (initialIssuerRef dicp) (issuerRef dicp)
         (issuerChangeChan dicp) (reconcileChan dicp) (trustDomain dicp).

(** Every certificate written by the calls is the one the request names. *)
Definition writesOnlyTo (req : Request) (cs : list StoreCall) : Prop :=
  forall call cert,
    In call cs -> written call = Some cert ->
    Name (Meta cert) = ReqName req /\ Namespace (Meta cert) = ReqNamespace req.

(** ** Requests, triggers and runs *)

(** The request that names the managed certificate. *)
Definition managedRequest {Client : Type} (dicp : DynamicIstiodCertProvisioner Client)
  : Request :=
  {| ReqNamespace := CertificateNamespace (opts dicp);
     ReqName := CertificateName (opts dicp) |}.

(** The event that names the managed certificate and carries nothing else. *)
Definition managedEvent {Client : Type} (dicp : DynamicIstiodCertProvisioner Client)
  : GenericEvent :=
  {| Object :=
       {| Meta := {| Name := CertificateName (opts dicp);
                     Namespace := CertificateNamespace (opts dicp);
                     ResourceVersion := "" |};
          Spec := zeroCertificateSpec |} |}.

(** The requests that a watch event on [obj] enqueues in the controller that
    [AddControllersToManager] builds with [For]: the request for the object
    itself, when the registered predicate accepts the object. *)
Definition watchRequests {Client : Type} (dicp : DynamicIstiodCertProvisioner Client)
    (obj : Certificate) : list Request :=
  if watchPredicate dicp obj
  then [ {| ReqNamespace := Namespace (Meta obj); ReqName := Name (Meta obj) |} ]
  else [].

(** Whether a notification is passed on as a trigger: every one is, but the
    absent value when an initial reference exists. *)
Definition triggers {Client : Type} (dicp : DynamicIstiodCertProvisioner Client)
    (update : option ObjectReference) : bool :=
  match update, initialIssuerRef dicp with
  | None, Some _ => false
  | _, _ => true
  end.

(** The two operations that share the provisioner, and their runs in any
    interleaving. *)
Inductive Op : Type :=
| OpIssuer (update : option ObjectReference)
| OpReconcile (req : Request).

Definition step {Client : Type} `{CertificateInterface Client}
    (dicp : DynamicIstiodCertProvisioner Client) (op : Op)
  : DynamicIstiodCertProvisioner Client :=
  match op with
  | OpIssuer update => handleNewIssuer dicp update
  | OpReconcile req => fst (Reconcile dicp req)
  end.

Definition run {Client : Type} `{CertificateInterface Client}
    (ops : list Op) (dicp : DynamicIstiodCertProvisioner Client)
  : DynamicIstiodCertProvisioner Client :=
  fold_left step ops dicp.

(** The notifications of a run, in order. *)
Definition notificationsOf (ops : list Op) : list (option ObjectReference) :=
  flat_map (fun op => match op with
                      | OpIssuer update => [update]
                      | OpReconcile _ => []
                      end) ops.

(** ** Sample data *)

Module Sample.

Definition clusterIssuer : ObjectReference :=
  {| RefName := "istio-ca"; RefKind := "ClusterIssuer"; RefGroup := "cert-manager.io" |}.

Definition otherIssuer : ObjectReference :=
  {| RefName := "mesh-ca"; RefKind := "Issuer"; RefGroup := "cert-manager.io" |}.

Definition options : Options :=
  {| CertificateName := "istiod-dynamic";
     CertificateNamespace := "istio-system";
     IstioRevisions := ["default"; "canary"];
     AdditionalDNSNames := ["extra.example.com"];
     OptDuration := 3600000000000;
     OptRenewBefore := 1800000000000;
     CMKeyAlgorithm := "RSA";
     KeySize := 2048 |}.

Definition emptyStore : FakeCertificates :=
  {| fakeNamespace := "istio-system"; fakeObjects := []; fakeGetError := None |}.

(** A certificate left in the store by an earlier version. *)
Definition staleCert : Certificate :=
  {| Meta := {| Name := "istiod-dynamic"; Namespace := "istio-system";
                ResourceVersion := "41" |};
     Spec := zeroCertificateSpec |}.

Definition storeWithCert : FakeCertificates :=
  {| fakeNamespace := "istio-system"; fakeObjects := [staleCert]; fakeGetError := None |}.

Definition brokenStore : FakeCertificates :=
  {| fakeNamespace := "istio-system"; fakeObjects := [staleCert];
     fakeGetError := Some (StatusError StatusReasonServerTimeout 500 "request timed out") |}.

Definition provisioner (store : FakeCertificates) (active : option ObjectReference)
  : DynamicIstiodCertProvisioner FakeCertificates :=
  {| certManagerClient := store;
     opts := options;
     initialIssuerRef := Some clusterIssuer;
     issuerRef := active;
     issuerChangeChan := [];
     reconcileChan := [];
     trustDomain := "cluster.local" |}.

(** A store behind a proxy that answers 404 without a reason. *)
Definition proxiedStore : FakeCertificates :=
  {| fakeNamespace := "istio-system"; fakeObjects := [];
     fakeGetError := Some (StatusError StatusReasonUnknown 404 "page not found") |}.

(** The provisioner of a store on which it may not write. *)
Definition readOnlyProvisioner (store : FakeCertificates)
    (active : option ObjectReference)
  : DynamicIstiodCertProvisioner (ReadOnly FakeCertificates) :=
  {| certManagerClient := {| readable := store |};
     opts := options;
     initialIssuerRef := Some clusterIssuer;
     issuerRef := active;
     issuerChangeChan := [];
     reconcileChan := [];
     trustDomain := "cluster.local" |}.

Definition notifier : IssuerChangeNotifier :=
  {| InitialIssuer := Some clusterIssuer;
     SubscribeIssuerChange := [Some otherIssuer; None] |}.

Definition request : Request :=
  {| ReqNamespace := "istio-system"; ReqName := "istiod-dynamic" |}.

(** A request for the managed name in a namespace the provisioner does not
    manage. *)
Definition foreignRequest : Request :=
  {| ReqNamespace := "other"; ReqName := "istiod-dynamic" |}.

End Sample.

(** * Properties *)

(** ** Formatting lemmas *)

Lemma Sprintf_defaultSAN (ns : string) :
  Sprintf "istiod.%s.svc" [ns] = "istiod." +++ ns +++ ".svc".
Proof. reflexivity. Qed.

Lemma Sprintf_revisionSAN (revision ns : string) :
  Sprintf "istiod%s.%s.svc" [revision; ns] = "istiod" +++ revision +++ "." +++ ns +++ ".svc".
Proof. reflexivity. Qed.

Lemma Sprintf_spiffe (td ns : string) :
  Sprintf "spiffe://%s/ns/%s/sa/istiod-service-account" [td; ns] = spiffeURI td ns.
Proof. reflexivity. Qed.

Lemma Sprintf_fetch (msg : string) :
  Sprintf "failed to fetch cert: %s" [msg] = "failed to fetch cert: " +++ msg.
Proof.
  cbn. repeat f_equal. symmetry. induction msg as [|c m IH]; cbn; congruence.
Qed.

(** ** The DNS names *)

Example makeDNSNames_foo :
  makeDNSNamesFromRevisions "foo" ["default"; "canary"]
  = ("istiod.foo.svc", ["istiod.foo.svc"; "istiodcanary.foo.svc"]).
Proof. reflexivity. Qed.

Example makeDNSNames_duplicates :
  snd (makeDNSNamesFromRevisions "ns" ["b"; "default"; "b"])
  = ["istiodb.ns.svc"; "istiod.ns.svc"; "istiodb.ns.svc"].
Proof. reflexivity. Qed.

(** The loop of [makeDNSNamesFromRevisions] appends the image of each
    revision to its accumulator. *)
Lemma dnsNames_loop (ns : string) (revisions acc : list string) :
  fold_left
    (fun dnsNames revision =>
       if String.eqb revision "default"
       then dnsNames ++ [Sprintf "istiod.%s.svc" [ns]]
       else dnsNames ++ [Sprintf "istiod%s.%s.svc" [revision; ns]])
    revisions acc
  = acc ++ map (dnsNameOfRevision ns) revisions.
Proof.
  revert acc.
  induction revisions as [|r rs IH]; intros acc; cbn [fold_left map].
  - now rewrite app_nil_r.
  - rewrite IH. unfold dnsNameOfRevision at 2.
    rewrite Sprintf_defaultSAN, Sprintf_revisionSAN.
    destruct (String.eqb r "default"); now rewrite <- app_assoc.
Qed.

Lemma revisions_defaulting (revisions : list string) :
  (if (length revisions =? 0)%nat then ["default"] else revisions)
  = revisionsOrDefault revisions.
Proof. now destruct revisions. Qed.

Lemma makeDNSNamesFromRevisions_eq (ns : string) (revisions : list string) :
  makeDNSNamesFromRevisions ns revisions
  = ("istiod." +++ ns +++ ".svc",
     map (dnsNameOfRevision ns) (revisionsOrDefault revisions)).
Proof.
  unfold makeDNSNamesFromRevisions.
  rewrite revisions_defaulting, dnsNames_loop, Sprintf_defaultSAN.
  reflexivity.
Qed.

(** C3: the DNS names are the images of the revisions, in input order and
    with duplicates kept, "default" giving [istiod.<ns>.svc] and any other
    revision [r] giving [istiod<r>.<ns>.svc]; an empty list of revisions is
    read as ["default"], so that its DNS names are [istiod.<ns>.svc] alone. *)
Theorem makeDNSNamesFromRevisions_dnsNames :
  forall (ns : string) (revisions : list string),
    snd (makeDNSNamesFromRevisions ns revisions)
    = map (dnsNameOfRevision ns) (revisionsOrDefault revisions)
    /\ length (snd (makeDNSNamesFromRevisions ns revisions))
       = length (revisionsOrDefault revisions)
    /\ (forall i : nat,
          nth_error (snd (makeDNSNamesFromRevisions ns revisions)) i
          = option_map
              (fun revision =>
                 if String.eqb revision "default"
                 then "istiod." +++ ns +++ ".svc"
                 else "istiod" +++ revision +++ "." +++ ns +++ ".svc")
              (nth_error (revisionsOrDefault revisions) i))
    /\ makeDNSNamesFromRevisions ns [] = makeDNSNamesFromRevisions ns ["default"]
    /\ snd (makeDNSNamesFromRevisions ns []) = ["istiod." +++ ns +++ ".svc"].
Proof.
  intros ns revisions.
  rewrite makeDNSNamesFromRevisions_eq. cbn [snd].
  repeat split.
  - apply length_map.
  - intros i. apply nth_error_map.
Qed.

(** C4: the common name is [istiod.<ns>.svc] whatever the revisions are,
    also when "default" is not among them; for namespace "foo" and revisions
    "default", "canary" the common name is [istiod.foo.svc] and the DNS
    names are [istiod.foo.svc] and [istiodcanary.foo.svc], in that order. *)
Theorem makeDNSNamesFromRevisions_commonName :
  (forall (ns : string) (revisions : list string),
      fst (makeDNSNamesFromRevisions ns revisions) = "istiod." +++ ns +++ ".svc")
  /\ fst (makeDNSNamesFromRevisions "foo" ["canary"]) = "istiod.foo.svc"
  /\ makeDNSNamesFromRevisions "foo" ["default"; "canary"]
     = ("istiod.foo.svc", ["istiod.foo.svc"; "istiodcanary.foo.svc"]).
Proof.
  split; [|split; reflexivity].
  intros ns revisions. now rewrite makeDNSNamesFromRevisions_eq.
Qed.

(** ** The issuer guard *)

Section IssuerGuard.

Context {Client : Type}.

Implicit Types (dicp : DynamicIstiodCertProvisioner Client)
               (update : option ObjectReference).

(** [handleNewIssuer] writes the active reference and the reconcile
    channel only. *)
Lemma handleNewIssuer_frame dicp update :
  certManagerClient (handleNewIssuer dicp update) = certManagerClient dicp
  /\ opts (handleNewIssuer dicp update) = opts dicp
  /\ initialIssuerRef (handleNewIssuer dicp update) = initialIssuerRef dicp
  /\ issuerChangeChan (handleNewIssuer dicp update) = issuerChangeChan dicp
  /\ trustDomain (handleNewIssuer dicp update) = trustDomain dicp.
Proof.
  unfold handleNewIssuer.
  destruct update, (initialIssuerRef dicp) eqn:E; cbn; rewrite ?E; repeat split.
Qed.

(** The active reference after a decision: the update, or the initial
    reference when the update is absent. *)
Lemma handleNewIssuer_issuerRef dicp update :
  issuerRef (handleNewIssuer dicp update)
  = match update with
    | Some u => Some u
    | None => initialIssuerRef dicp
    end.
Proof.
  unfold handleNewIssuer.
  destruct update, (initialIssuerRef dicp); reflexivity.
Qed.

Lemma handleNewIssuer_keeps_active dicp update :
  initialIssuerRef dicp <> None ->
  issuerRef (handleNewIssuer dicp update) <> None.
Proof.
  intros Hini. rewrite handleNewIssuer_issuerRef.
  destruct update; [discriminate | exact Hini].
Qed.

(** A non-absent active reference with a non-absent initial reference
    stays non-absent through any sequence of decisions. *)
Lemma handleNewIssuer_all_active dicp (updates : list (option ObjectReference)) :
  initialIssuerRef dicp <> None ->
  issuerRef dicp <> None ->
  issuerRef (fold_left handleNewIssuer updates dicp) <> None.
Proof.
  revert dicp.
  induction updates as [|u us IH]; intros dicp Hini Hact; cbn [fold_left].
  - exact Hact.
  - apply IH.
    + destruct (handleNewIssuer_frame dicp u) as (_ & _ & -> & _). exact Hini.
    + now apply handleNewIssuer_keeps_active.
Qed.

End IssuerGuard.

(** Two updates in a row leave the second one active, and each sends one
    event. *)
Example handleNewIssuer_last_wins :
  let dicp :=
    fold_left handleNewIssuer [Some Sample.otherIssuer; Some Sample.clusterIssuer]
              (Sample.provisioner Sample.emptyStore None) in
  issuerRef dicp = Some Sample.clusterIssuer /\ length (reconcileChan dicp) = 2.
Proof. split; reflexivity. Qed.

(** C1: when an initial issuer reference exists, [handleNewIssuer] with an
    absent update restores the active reference to the initial reference and
    sends nothing on the reconcile channel; nothing else changes either. *)
Theorem handleNewIssuer_absent_restores_initial :
  forall (Client : Type) (dicp : DynamicIstiodCertProvisioner Client)
         (initial : ObjectReference),
    initialIssuerRef dicp = Some initial ->
    issuerRef (handleNewIssuer dicp None) = Some initial
    /\ reconcileChan (handleNewIssuer dicp None) = reconcileChan dicp
    /\ handleNewIssuer dicp None = setIssuerRef dicp (Some initial).
Proof.
  intros Client dicp initial Hini.
  unfold handleNewIssuer. rewrite Hini. cbn. repeat split.
Qed.

Lemma handleNewIssuer_absent_restores_initial_witness :
  issuerRef (handleNewIssuer
               (Sample.provisioner Sample.emptyStore (Some Sample.otherIssuer)) None)
  = Some Sample.clusterIssuer
  /\ reconcileChan (handleNewIssuer
                      (Sample.provisioner Sample.emptyStore (Some Sample.otherIssuer)) None)
     = [].
Proof.
  destruct (handleNewIssuer_absent_restores_initial
              FakeCertificates
              (Sample.provisioner Sample.emptyStore (Some Sample.otherIssuer))
              Sample.clusterIssuer eq_refl) as (H1 & H2 & _).
  split; [exact H1 | exact H2].
Defined.

(** C2: [handleNewIssuer] with a non-absent update [u] makes [u] the active
    reference and sends exactly one event on the reconcile channel, whose
    object carries the configured certificate name and namespace. *)
Theorem handleNewIssuer_update_triggers :
  forall (Client : Type) (dicp : DynamicIstiodCertProvisioner Client)
         (u : ObjectReference),
    issuerRef (handleNewIssuer dicp (Some u)) = Some u
    /\ exists ev : GenericEvent,
         reconcileChan (handleNewIssuer dicp (Some u)) = reconcileChan dicp ++ [ev]
         /\ Name (Meta (Object ev)) = CertificateName (opts dicp)
         /\ Namespace (Meta (Object ev)) = CertificateNamespace (opts dicp).
Proof.
  intros Client dicp u.
  unfold handleNewIssuer.
  destruct (initialIssuerRef dicp); cbn; (split; [reflexivity|]);
    eexists; repeat split.
Qed.

(** C8: when the initial issuer reference given to [New] is non-absent, the
    active reference is the initial one, hence non-absent, in the state
    [New] builds, and it is non-absent after every sequence of
    [handleNewIssuer] calls, absent updates included. *)
Theorem active_issuer_never_cleared :
  forall (Client RestConfig : Type)
         (newForConfig : RestConfig -> (string -> Client) + error)
         (restConfig : RestConfig) (o : Options)
         (notifier : IssuerChangeNotifier) (td : string)
         (dicp : DynamicIstiodCertProvisioner Client),
    InitialIssuer notifier <> None ->
    New newForConfig restConfig o notifier td = inl dicp ->
    issuerRef dicp = InitialIssuer notifier
    /\ issuerRef dicp <> None
    /\ forall updates : list (option ObjectReference),
         issuerRef (fold_left handleNewIssuer updates dicp) <> None.
Proof.
  intros Client RestConfig newForConfig restConfig o notifier td dicp Hini Hnew.
  unfold New in Hnew.
  destruct (newForConfig restConfig) as [cm|err]; [|discriminate].
  injection Hnew as <-. cbn [issuerRef].
  split; [reflexivity|]. split; [exact Hini|].
  intros updates. apply handleNewIssuer_all_active; exact Hini.
Qed.

Lemma active_issuer_never_cleared_witness :
  exists dicp : DynamicIstiodCertProvisioner FakeCertificates,
    New fakeNewForConfig true Sample.options Sample.notifier "cluster.local" = inl dicp
    /\ issuerRef (fold_left handleNewIssuer [None; Some Sample.otherIssuer; None] dicp)
       <> None.
Proof.
  eexists. split; [reflexivity|].
  refine (proj2 (proj2 (active_issuer_never_cleared
                          FakeCertificates bool fakeNewForConfig true Sample.options
                          Sample.notifier "cluster.local" _ _ eq_refl)) _).
  cbn. discriminate.
Defined.

(** ** Reconcile *)

Lemma append_additional (dnsNames additional : list string) :
  (if (0 <? length additional)%nat then dnsNames ++ additional else dnsNames)
  = dnsNames ++ additional.
Proof. destruct additional; cbn; [now rewrite app_nil_r | reflexivity]. Qed.

Section ReconcileFacts.

Context {Client : Type} `{CertificateInterface Client}.

Implicit Types (dicp : DynamicIstiodCertProvisioner Client) (req : Request).

(** [Reconcile] with an active issuer, by the cases of the fetch. *)
Lemma Reconcile_active dicp req (ref : ObjectReference) :
  issuerRef dicp = Some ref ->
  Reconcile dicp req
  = let spec := desiredSpecOf ref (opts dicp) (trustDomain dicp) (ReqNamespace req) in
    let fetched := Get (certManagerClient dicp) (ReqName req) in
    match snd fetched with
    | inr err =>
        if IsNotFound err then
          let created := Create (fst fetched) (newCert dicp req ref) in
          (setClient dicp (fst created), (zeroResult, errOf (snd created)))
        else
          (setClient dicp (fst fetched),
           (zeroResult, Some (errorString ("failed to fetch cert: " +++ Error err))))
    | inl cert =>
        let updated := Update (fst fetched) (setSpec cert spec) in
        (setClient dicp (fst updated), (zeroResult, errOf (snd updated)))
    end.
Proof.
  intros Href. unfold Reconcile. rewrite Href.
  rewrite makeDNSNamesFromRevisions_eq, append_additional, Sprintf_spiffe.
  cbv zeta.
  destruct (Get (certManagerClient dicp) (ReqName req)) as [client [cert|err]];
    cbn [fst snd].
  - fold (desiredSpecOf ref (opts dicp) (trustDomain dicp) (ReqNamespace req)).
    now destruct (Update client _).
  - destruct (IsNotFound err); cbn [negb].
    + fold (desiredSpecOf ref (opts dicp) (trustDomain dicp) (ReqNamespace req)).
      fold (newCert dicp req ref).
      now destruct (Create client _).
    + unfold Errorf. now rewrite Sprintf_fetch.
Qed.

Lemma Reconcile_inactive dicp req :
  issuerRef dicp = None ->
  Reconcile dicp req = (dicp, (zeroResult, None)).
Proof. intros Href. unfold Reconcile. now rewrite Href. Qed.

(** [Reconcile] writes the client field only. *)
Lemma Reconcile_frame dicp req :
  opts (fst (Reconcile dicp req)) = opts dicp
  /\ initialIssuerRef (fst (Reconcile dicp req)) = initialIssuerRef dicp
  /\ issuerRef (fst (Reconcile dicp req)) = issuerRef dicp
  /\ issuerChangeChan (fst (Reconcile dicp req)) = issuerChangeChan dicp
  /\ reconcileChan (fst (Reconcile dicp req)) = reconcileChan dicp
  /\ trustDomain (fst (Reconcile dicp req)) = trustDomain dicp.
Proof.
  destruct (issuerRef dicp) as [ref|] eqn:Href.
  - rewrite (Reconcile_active dicp req ref Href). cbv zeta.
    destruct (snd (Get (certManagerClient dicp) (ReqName req))) as [cert|err];
      [|destruct (IsNotFound err)]; cbn; rewrite ?Href; repeat split.
  - rewrite (Reconcile_inactive dicp req Href). cbn. rewrite Href. repeat split.
Qed.

End ReconcileFacts.

Section RecordedCalls.

Context {Client : Type} `{CertificateInterface Client}.

Implicit Types (dicp : DynamicIstiodCertProvisioner Client) (req : Request).

(** The calls of [Reconcile] with an active issuer, by the cases of the
    fetch. *)
Lemma storeCalls_active dicp req (ref : ObjectReference) :
  issuerRef dicp = Some ref ->
  storeCalls dicp req
  = match snd (Get (certManagerClient dicp) (ReqName req)) with
    | inr err =>
        if IsNotFound err
        then [CallGet (ReqName req); CallCreate (newCert dicp req ref)]
        else [CallGet (ReqName req)]
    | inl cert =>
        [CallGet (ReqName req);
         CallUpdate
           (setSpec cert
              (desiredSpecOf ref (opts dicp) (trustDomain dicp) (ReqNamespace req)))]
    end.
Proof.
  intros Href. unfold storeCalls.
  rewrite (Reconcile_active (recording dicp) req ref Href).
  cbn -[desiredSpecOf].
  destruct (snd (Get (certManagerClient dicp) (ReqName req))) as [cert|err];
    [|destruct (IsNotFound err)]; reflexivity.
Qed.

Lemma storeCalls_inactive dicp req :
  issuerRef dicp = None -> storeCalls dicp req = [].
Proof.
  intros Href. unfold storeCalls.
  now rewrite (Reconcile_inactive (recording dicp) req Href).
Qed.

(** Recording is transparent: result and store are those of the plain
    run. *)
Lemma Reconcile_recording dicp req :
  snd (Reconcile (recording dicp) req) = snd (Reconcile dicp req)
  /\ inner (certManagerClient (fst (Reconcile (recording dicp) req)))
     = certManagerClient (fst (Reconcile dicp req)).
Proof.
  destruct (issuerRef dicp) as [ref|] eqn:Href.
  - rewrite (Reconcile_active (recording dicp) req ref Href),
            (Reconcile_active dicp req ref Href).
    cbn -[desiredSpecOf].
    destruct (snd (Get (certManagerClient dicp) (ReqName req))) as [cert|err];
      [|destruct (IsNotFound err)]; split; reflexivity.
  - rewrite (Reconcile_inactive (recording dicp) req Href),
            (Reconcile_inactive dicp req Href).
    split; reflexivity.
Qed.

(** Every certificate [Reconcile] writes carries the desired
    specification of the active issuer. *)
Lemma written_spec dicp req (call : StoreCall) (cert : Certificate) :
  In call (storeCalls dicp req) ->
  written call = Some cert ->
  exists ref,
    issuerRef dicp = Some ref
    /\ Spec cert = desiredSpecOf ref (opts dicp) (trustDomain dicp) (ReqNamespace req).
Proof.
  intros Hin Hw.
  destruct (issuerRef dicp) as [ref|] eqn:Href.
  - exists ref. split; [reflexivity|].
    rewrite (storeCalls_active dicp req ref Href) in Hin.
    destruct (snd (Get (certManagerClient dicp) (ReqName req))) as [c|err];
      [|destruct (IsNotFound err)]; cbn in Hin;
      repeat (destruct Hin as [<-|Hin]; [cbn in Hw; try discriminate|]);
      try contradiction; injection Hw as <-; reflexivity.
  - rewrite (storeCalls_inactive dicp req Href) in Hin. contradiction.
Qed.

End RecordedCalls.

(** C5: with an active issuer, a fetch that fails with not-found is followed
    by exactly one create of the request's certificate with the desired
    specification, and the outcome is the create's: no error when the create
    succeeds, the create's error when it fails; a fetch that fails otherwise
    ends the reconcile with an error carrying the fetch error's message, and
    nothing is written; a fetch that succeeds is followed by exactly one
    update of the fetched certificate with its specification replaced by the
    desired one, and the outcome is the update's in the same way.  No patch
    is ever issued. *)
Theorem Reconcile_fetch_then_converge :
  forall (Client : Type) (I : CertificateInterface Client)
         (dicp : DynamicIstiodCertProvisioner Client) (req : Request)
         (ref : ObjectReference),
    issuerRef dicp = Some ref ->
    let spec := desiredSpecOf ref (opts dicp) (trustDomain dicp) (ReqNamespace req) in
    let fetched := Get (certManagerClient dicp) (ReqName req) in
    existsb isPatch (storeCalls dicp req) = false
    /\ match snd fetched with
       | inr err =>
           if IsNotFound err then
             let cert :=
               {| Meta := {| Name := ReqName req; Namespace := ReqNamespace req;
                             ResourceVersion := "" |};
                  Spec := spec |} in
             storeCalls dicp req = [CallGet (ReqName req); CallCreate cert]
             /\ snd (Reconcile dicp req)
                = (zeroResult,
                   match snd (Create (fst fetched) cert) with
                   | inl _ => None
                   | inr createErr => Some createErr
                   end)
           else
             storeCalls dicp req = [CallGet (ReqName req)]
             /\ snd (Reconcile dicp req)
                = (zeroResult,
                   Some (errorString ("failed to fetch cert: " +++ Error err)))
       | inl cert =>
           let cert' := {| Meta := Meta cert; Spec := spec |} in
           storeCalls dicp req = [CallGet (ReqName req); CallUpdate cert']
           /\ snd (Reconcile dicp req)
              = (zeroResult,
                 match snd (Update (fst fetched) cert') with
                 | inl _ => None
                 | inr updateErr => Some updateErr
                 end)
       end.
Proof.
  intros Client I dicp req ref Href. cbv zeta.
  rewrite (storeCalls_active dicp req ref Href), (Reconcile_active dicp req ref Href).
  cbv zeta.
  destruct (snd (Get (certManagerClient dicp) (ReqName req))) as [cert|err];
    [|destruct (IsNotFound err)]; cbn [fst snd existsb isPatch orb].
  - split; [reflexivity|]. split; [reflexivity|].
    unfold setSpec. now destruct (snd (Update _ _)).
  - split; [reflexivity|]. split; [reflexivity|].
    unfold newCert. now destruct (snd (Create _ _)).
  - repeat split.
Qed.

Lemma Reconcile_fetch_then_converge_witness :
  let active := Some Sample.clusterIssuer in
  (storeCalls (Sample.provisioner Sample.emptyStore active) Sample.request
   = [CallGet "istiod-dynamic";
      CallCreate (newCert (Sample.provisioner Sample.emptyStore active)
                          Sample.request Sample.clusterIssuer)]
   /\ snd (Reconcile (Sample.provisioner Sample.emptyStore active) Sample.request)
      = (zeroResult, None))
  /\ (storeCalls (Sample.provisioner Sample.brokenStore active) Sample.request
      = [CallGet "istiod-dynamic"]
      /\ snd (Reconcile (Sample.provisioner Sample.brokenStore active) Sample.request)
         = (zeroResult, Some (errorString "failed to fetch cert: request timed out")))
  /\ (storeCalls (Sample.provisioner Sample.storeWithCert active) Sample.request
      = [CallGet "istiod-dynamic";
         CallUpdate
           {| Meta := {| Name := "istiod-dynamic"; Namespace := "istio-system";
                         ResourceVersion := "41" |};
              Spec := desiredSpecOf Sample.clusterIssuer Sample.options
                                    "cluster.local" "istio-system" |}]
      /\ snd (Reconcile (Sample.provisioner Sample.storeWithCert active) Sample.request)
         = (zeroResult, None))
  /\ (storeCalls (Sample.readOnlyProvisioner Sample.emptyStore active) Sample.request
      = [CallGet "istiod-dynamic";
         CallCreate (newCert (Sample.readOnlyProvisioner Sample.emptyStore active)
                             Sample.request Sample.clusterIssuer)]
      /\ snd (Reconcile (Sample.readOnlyProvisioner Sample.emptyStore active)
                        Sample.request)
         = (zeroResult,
            Some (StatusError "Forbidden" 403 "certificates is forbidden")))
  /\ (storeCalls (Sample.readOnlyProvisioner Sample.storeWithCert active) Sample.request
      = [CallGet "istiod-dynamic";
         CallUpdate
           {| Meta := {| Name := "istiod-dynamic"; Namespace := "istio-system";
                         ResourceVersion := "41" |};
              Spec := desiredSpecOf Sample.clusterIssuer Sample.options
                                    "cluster.local" "istio-system" |}]
      /\ snd (Reconcile (Sample.readOnlyProvisioner Sample.storeWithCert active)
                        Sample.request)
         = (zeroResult,
            Some (StatusError "Forbidden" 403 "certificates is forbidden")))
  /\ (storeCalls (Sample.provisioner Sample.proxiedStore active) Sample.request
      = [CallGet "istiod-dynamic";
         CallCreate (newCert (Sample.provisioner Sample.proxiedStore active)
                             Sample.request Sample.clusterIssuer)]
      /\ snd (Reconcile (Sample.provisioner Sample.proxiedStore active) Sample.request)
         = (zeroResult, None)).
Proof.
  intros active.
  split; [|split; [|split; [|split; [|split]]]].
  - exact (proj2 (Reconcile_fetch_then_converge
                    FakeCertificates _
                    (Sample.provisioner Sample.emptyStore active) Sample.request
                    Sample.clusterIssuer eq_refl)).
  - exact (proj2 (Reconcile_fetch_then_converge
                    FakeCertificates _
                    (Sample.provisioner Sample.brokenStore active) Sample.request
                    Sample.clusterIssuer eq_refl)).
  - exact (proj2 (Reconcile_fetch_then_converge
                    FakeCertificates _
                    (Sample.provisioner Sample.storeWithCert active) Sample.request
                    Sample.clusterIssuer eq_refl)).
  - exact (proj2 (Reconcile_fetch_then_converge
                    (ReadOnly FakeCertificates) _
                    (Sample.readOnlyProvisioner Sample.emptyStore active) Sample.request
                    Sample.clusterIssuer eq_refl)).
  - exact (proj2 (Reconcile_fetch_then_converge
                    (ReadOnly FakeCertificates) _
                    (Sample.readOnlyProvisioner Sample.storeWithCert active) Sample.request
                    Sample.clusterIssuer eq_refl)).
  - exact (proj2 (Reconcile_fetch_then_converge
                    FakeCertificates _
                    (Sample.provisioner Sample.proxiedStore active) Sample.request
                    Sample.clusterIssuer eq_refl)).
Defined.

(** The classification of fetch errors follows [apierrors.IsNotFound]: the
    not-found reason, or a reason that is not a known one together with code
    404, also under wrapping; a plain error, or a known other reason with
    code 404, is a failure. *)
Example IsNotFound_cases :
  IsNotFound (StatusError StatusReasonNotFound 404 "not found") = true
  /\ IsNotFound (StatusError StatusReasonUnknown 404 "page not found") = true
  /\ IsNotFound (StatusError "Custom" 404 "custom") = true
  /\ IsNotFound (wrapError "get: not found"
                   (StatusError StatusReasonNotFound 404 "not found")) = true
  /\ IsNotFound (StatusError StatusReasonForbidden 404 "hidden") = false
  /\ IsNotFound (StatusError StatusReasonUnknown 500 "boom") = false
  /\ IsNotFound (errorString "not found") = false.
Proof. repeat split. Qed.

(** C6: without an active issuer [Reconcile] returns the zero result and no
    error, leaves the provisioner as it was and calls the client not at all:
    no get, no create, no update. *)
Theorem Reconcile_without_issuer :
  forall (Client : Type) (I : CertificateInterface Client)
         (dicp : DynamicIstiodCertProvisioner Client) (req : Request),
    issuerRef dicp = None ->
    Reconcile dicp req = (dicp, ({| Requeue := false; RequeueAfter := 0 |}, None))
    /\ storeCalls dicp req = [].
Proof.
  intros Client I dicp req Href. split.
  - exact (Reconcile_inactive dicp req Href).
  - exact (storeCalls_inactive dicp req Href).
Qed.

Lemma Reconcile_without_issuer_witness :
  Reconcile (Sample.provisioner Sample.storeWithCert None) Sample.request
  = (Sample.provisioner Sample.storeWithCert None, (zeroResult, None))
  /\ storeCalls (Sample.provisioner Sample.storeWithCert None) Sample.request = [].
Proof.
  exact (Reconcile_without_issuer
           FakeCertificates _
           (Sample.provisioner Sample.storeWithCert None) Sample.request eq_refl).
Defined.

(** C7: every certificate that [Reconcile] creates or updates has a
    specification with rotation policy "Always", secret name "istiod-tls",
    revision-history limit 1, the one URI
    [spiffe://<trustDomain>/ns/<namespace>/sa/istiod-service-account] of the
    request's namespace, the active issuer reference, and as DNS names the
    names of the revisions followed by the additional DNS names as they are
    configured. *)
Theorem Reconcile_desired_spec_fields :
  forall (Client : Type) (I : CertificateInterface Client)
         (dicp : DynamicIstiodCertProvisioner Client) (req : Request)
         (call : StoreCall) (cert : Certificate),
    In call (storeCalls dicp req) ->
    written call = Some cert ->
    option_map RotationPolicy (PrivateKey (Spec cert)) = Some "Always"
    /\ SecretName (Spec cert) = "istiod-tls"
    /\ RevisionHistoryLimit (Spec cert) = Some 1%Z
    /\ URIs (Spec cert)
       = ["spiffe://" +++ trustDomain dicp +++ "/ns/" +++ ReqNamespace req
          +++ "/sa/istiod-service-account"]
    /\ issuerRef dicp = Some (IssuerRef (Spec cert))
    /\ DNSNames (Spec cert)
       = snd (makeDNSNamesFromRevisions (ReqNamespace req) (IstioRevisions (opts dicp)))
         ++ AdditionalDNSNames (opts dicp).
Proof.
  intros Client I dicp req call cert Hin Hw.
  destruct (written_spec dicp req call cert Hin Hw) as (ref & Href & ->).
  rewrite makeDNSNamesFromRevisions_eq.
  cbn. rewrite Href. repeat split.
Qed.

Lemma Reconcile_desired_spec_fields_witness :
  let dicp := Sample.provisioner Sample.emptyStore (Some Sample.clusterIssuer) in
  let cert := newCert dicp Sample.request Sample.clusterIssuer in
  storeCalls dicp Sample.request = [CallGet "istiod-dynamic"; CallCreate cert]
  /\ SecretName (Spec cert) = "istiod-tls"
  /\ URIs (Spec cert) = ["spiffe://cluster.local/ns/istio-system/sa/istiod-service-account"]
  /\ DNSNames (Spec cert)
     = ["istiod.istio-system.svc"; "istiodcanary.istio-system.svc"; "extra.example.com"].
Proof.
  intros dicp cert.
  split; [reflexivity|].
  pose proof (Reconcile_desired_spec_fields
                FakeCertificates _ dicp Sample.request (CallCreate cert) cert
                (or_intror (or_introl eq_refl)) eq_refl)
    as (_ & Hsecret & _ & Huri & _ & Hdns).
  split; [exact Hsecret | split; [exact Huri | exact Hdns]].
Defined.

(** The specifications written by two provisioners that agree on the active
    issuer, the options and the trust domain, for requests of one namespace,
    are equal, whatever their clients and stores are. *)
Lemma written_spec_agree
    (Client1 Client2 : Type)
    (I1 : CertificateInterface Client1) (I2 : CertificateInterface Client2)
    (d1 : DynamicIstiodCertProvisioner Client1)
    (d2 : DynamicIstiodCertProvisioner Client2)
    (req1 req2 : Request) (call1 call2 : StoreCall) (cert1 cert2 : Certificate) :
  issuerRef d1 = issuerRef d2 ->
  opts d1 = opts d2 ->
  trustDomain d1 = trustDomain d2 ->
  ReqNamespace req1 = ReqNamespace req2 ->
  In call1 (storeCalls d1 req1) -> written call1 = Some cert1 ->
  In call2 (storeCalls d2 req2) -> written call2 = Some cert2 ->
  Spec cert1 = Spec cert2.
Proof.
  intros Hi Ho Ht Hn Hin1 Hw1 Hin2 Hw2.
  destruct (written_spec d1 req1 call1 cert1 Hin1 Hw1) as (r1 & Hr1 & ->).
  destruct (written_spec d2 req2 call2 cert2 Hin2 Hw2) as (r2 & Hr2 & ->).
  rewrite Ho, Ht, Hn. f_equal. congruence.
Qed.

(** C9: the specification [Reconcile] writes is the function
    [desiredSpecOf] of the active issuer reference, the options, the trust
    domain and the request's namespace, and of nothing else; [Reconcile]
    leaves these inputs as they are, so that a second [Reconcile] of the
    same request, with no issuer change in between, writes the same
    specification as the first, field by field. *)
Theorem Reconcile_desired_spec_deterministic :
  forall (Client : Type) (I : CertificateInterface Client)
         (dicp : DynamicIstiodCertProvisioner Client) (req : Request),
    let dicp' := fst (Reconcile dicp req) in
    (forall call cert,
        In call (storeCalls dicp req) -> written call = Some cert ->
        exists ref,
          issuerRef dicp = Some ref
          /\ Spec cert
             = desiredSpecOf ref (opts dicp) (trustDomain dicp) (ReqNamespace req))
    /\ (issuerRef dicp' = issuerRef dicp
        /\ opts dicp' = opts dicp
        /\ trustDomain dicp' = trustDomain dicp)
    /\ (forall call1 cert1 call2 cert2,
           In call1 (storeCalls dicp req) -> written call1 = Some cert1 ->
           In call2 (storeCalls dicp' req) -> written call2 = Some cert2 ->
           Spec cert1 = Spec cert2).
Proof.
  intros Client I dicp req dicp'.
  destruct (Reconcile_frame dicp req) as (Ho & _ & Hi & _ & _ & Ht).
  fold dicp' in Ho, Hi, Ht.
  split; [|split].
  - intros call cert. apply written_spec.
  - now repeat split.
  - intros call1 cert1 call2 cert2 Hin1 Hw1 Hin2 Hw2.
    apply (written_spec_agree Client Client I I dicp dicp' req req call1 call2);
      auto.
Qed.

Lemma Reconcile_desired_spec_deterministic_witness :
  let dicp := Sample.provisioner Sample.emptyStore (Some Sample.clusterIssuer) in
  let dicp' := fst (Reconcile dicp Sample.request) in
  exists cert1 cert2,
    storeCalls dicp Sample.request = [CallGet "istiod-dynamic"; CallCreate cert1]
    /\ storeCalls dicp' Sample.request = [CallGet "istiod-dynamic"; CallUpdate cert2]
    /\ Spec cert1 = Spec cert2.
Proof.
  intros dicp dicp'.
  eexists. eexists.
  split; [reflexivity|]. split; [reflexivity|].
  exact (proj2 (proj2 (Reconcile_desired_spec_deterministic
                         FakeCertificates _ dicp Sample.request))
           _ _ _ _
           (or_intror (or_introl eq_refl)) eq_refl
           (or_intror (or_introl eq_refl)) eq_refl).
Defined.

(** ** The identity of the reconciled certificate *)

(** The predicate registered for the certificate watch accepts the
    configured identity and nothing else. *)
Lemma watchPredicate_spec
    (Client : Type) (dicp : DynamicIstiodCertProvisioner Client) (obj : Certificate) :
  watchPredicate dicp obj = true
  <-> Name (Meta obj) = CertificateName (opts dicp)
      /\ Namespace (Meta obj) = CertificateNamespace (opts dicp).
Proof.
  unfold watchPredicate.
  rewrite andb_true_iff, !String.eqb_eq. reflexivity.
Qed.

(** The fetch is by name alone, so the certificate an update writes back has
    the same metadata whatever namespace the request gives. *)
Lemma update_target_ignores_request_namespace
    (Client : Type) (I : CertificateInterface Client)
    (dicp : DynamicIstiodCertProvisioner Client)
    (n ns1 ns2 : string) (cert1 cert2 : Certificate) :
  In (CallUpdate cert1) (storeCalls dicp {| ReqNamespace := ns1; ReqName := n |}) ->
  In (CallUpdate cert2) (storeCalls dicp {| ReqNamespace := ns2; ReqName := n |}) ->
  Meta cert1 = Meta cert2.
Proof.
  intros H1 H2.
  destruct (issuerRef dicp) as [ref|] eqn:Href.
  - rewrite (storeCalls_active dicp _ ref Href) in H1.
    rewrite (storeCalls_active dicp _ ref Href) in H2.
    cbn [ReqName ReqNamespace] in H1, H2.
    destruct (snd (Get (certManagerClient dicp) n)) as [c|err];
      [|destruct (IsNotFound err)]; cbn in H1, H2;
      repeat (destruct H1 as [H1|H1]; try discriminate; try contradiction);
      repeat (destruct H2 as [H2|H2]; try discriminate; try contradiction).
    injection H1 as <-. injection H2 as <-. reflexivity.
  - rewrite (storeCalls_inactive dicp _ Href) in H1. contradiction.
Qed.

(** C10, as stated, fails: a request for the managed name in another
    namespace makes [Reconcile] fetch the managed certificate through the
    client of the configured namespace and update that certificate, not one
    in the request's namespace. *)
Lemma Reconcile_foreign_namespace_counterexample :
  storeCalls (Sample.provisioner Sample.storeWithCert (Some Sample.clusterIssuer))
             Sample.foreignRequest
  = [CallGet "istiod-dynamic";
     CallUpdate
       {| Meta := {| Name := "istiod-dynamic"; Namespace := "istio-system";
                     ResourceVersion := "41" |};
          Spec := desiredSpecOf Sample.clusterIssuer Sample.options
                                "cluster.local" "other" |}]
  /\ ~ writesOnlyTo Sample.foreignRequest
         (storeCalls (Sample.provisioner Sample.storeWithCert (Some Sample.clusterIssuer))
                     Sample.foreignRequest).
Proof.
  split; [reflexivity|].
  intros Hall.
  specialize (Hall _ _ (or_intror (or_introl eq_refl)) eq_refl).
  destruct Hall as [_ Hns]. cbn in Hns. discriminate Hns.
Qed.

(** C10, amended: [Reconcile] never reads the configured certificate name
    and namespace, so it checks no request against them.  For every request
    [(ns, n)] it fetches by [n] alone, through the client it was built
    with, and builds the SPIFFE URI and the DNS names from [ns]; when the
    fetch reports not-found it creates a certificate with metadata
    [(ns, n)]; when the fetch succeeds it updates the fetched certificate
    under the metadata the store returned. *)
Theorem Reconcile_ignores_configured_identity :
  forall (Client : Type) (I : CertificateInterface Client)
         (dicp : DynamicIstiodCertProvisioner Client) (req : Request)
         (ref : ObjectReference),
    issuerRef dicp = Some ref ->
    (forall name' ns' : string,
        storeCalls (withIdentity dicp name' ns') req = storeCalls dicp req
        /\ snd (Reconcile (withIdentity dicp name' ns') req) = snd (Reconcile dicp req)
        /\ certManagerClient (fst (Reconcile (withIdentity dicp name' ns') req))
           = certManagerClient (fst (Reconcile dicp req)))
    /\ exists rest : list StoreCall,
         storeCalls dicp req = CallGet (ReqName req) :: rest
         /\ (forall call cert,
                In call rest -> written call = Some cert ->
                URIs (Spec cert) = [spiffeURI (trustDomain dicp) (ReqNamespace req)]
                /\ CommonName (Spec cert) = "istiod." +++ ReqNamespace req +++ ".svc"
                /\ DNSNames (Spec cert)
                   = map (dnsNameOfRevision (ReqNamespace req))
                         (revisionsOrDefault (IstioRevisions (opts dicp)))
                     ++ AdditionalDNSNames (opts dicp))
         /\ match snd (Get (certManagerClient dicp) (ReqName req)) with
            | inl fetched =>
                exists cert, rest = [CallUpdate cert] /\ Meta cert = Meta fetched
            | inr err =>
                if IsNotFound err then
                  exists cert,
                    rest = [CallCreate cert]
                    /\ Name (Meta cert) = ReqName req
                    /\ Namespace (Meta cert) = ReqNamespace req
                else rest = []
            end.
Proof.
  intros Client I dicp req ref Href.
  split.
  - intros name' ns'.
    assert (Href' : issuerRef (withIdentity dicp name' ns') = Some ref) by exact Href.
    rewrite (storeCalls_active _ req ref Href'), (storeCalls_active _ req ref Href).
    rewrite (Reconcile_active _ req ref Href'), (Reconcile_active _ req ref Href).
    cbv zeta. unfold newCert, desiredSpecOf.
    cbn [withIdentity certManagerClient opts trustDomain IstioRevisions
         AdditionalDNSNames OptDuration OptRenewBefore CMKeyAlgorithm KeySize].
    destruct (snd (Get (certManagerClient dicp) (ReqName req))) as [cert|err];
      [|destruct (IsNotFound err)]; repeat split.
  - rewrite (storeCalls_active dicp req ref Href).
    destruct (snd (Get (certManagerClient dicp) (ReqName req))) as [fetched|err];
      [|destruct (IsNotFound err)];
      eexists; (split; [reflexivity|]); (split; [|try (eexists; repeat split)]);
      try reflexivity;
      intros call cert Hin Hw;
      repeat (destruct Hin as [<-|Hin]); try contradiction;
      injection Hw as <-; repeat split.
Qed.

Lemma Reconcile_ignores_configured_identity_witness :
  let dicp := Sample.provisioner Sample.storeWithCert (Some Sample.clusterIssuer) in
  let other := {| ReqNamespace := "istio-system"; ReqName := "another-cert" |} in
  storeCalls (withIdentity dicp "managed" "elsewhere") other = storeCalls dicp other
  /\ exists cert,
       storeCalls dicp other = [CallGet "another-cert"; CallCreate cert]
       /\ Name (Meta cert) = "another-cert".
Proof.
  intros dicp other.
  pose proof (Reconcile_ignores_configured_identity
                FakeCertificates _ dicp other Sample.clusterIssuer eq_refl)
    as (Hsame & rest & Hcalls & _ & Hcase).
  split.
  - exact (proj1 (Hsame "managed" "elsewhere")).
  - cbn in Hcase. destruct Hcase as (cert & -> & Hname & _).
    exists cert. split; [exact Hcalls | exact Hname].
Defined.

(** ** The event loop *)

(** A run of [Start] in which every send is accepted returns no error and
    keeps the active reference non-absent when an initial reference
    exists. *)
Lemma Start_keeps_active
    (Client : Type) (received : nat) (dicp : DynamicIstiodCertProvisioner Client) :
  initialIssuerRef dicp <> None ->
  issuerRef dicp <> None ->
  issuerRef (fst (Start received dicp)) <> None /\ snd (Start received dicp) = None.
Proof.
  revert dicp.
  induction received as [|n IH]; intros dicp Hini Hact; cbn [Start].
  - now split.
  - destruct (issuerChangeChan dicp) as [|u pending]; [now split|].
    apply IH.
    + destruct (handleNewIssuer_frame (setIssuerChangeChan dicp pending) u)
        as (_ & _ & -> & _).
      exact Hini.
    + apply handleNewIssuer_keeps_active. exact Hini.
Qed.

(** The sample notifier delivers an update and then an absent value: the
    update is made active and triggers a reconcile, the absent value brings
    the initial issuer back and triggers nothing. *)
Example Start_sample :
  forall dicp : DynamicIstiodCertProvisioner FakeCertificates,
    New fakeNewForConfig true Sample.options Sample.notifier "cluster.local" = inl dicp ->
    issuerRef (fst (Start 1 dicp)) = Some Sample.otherIssuer
    /\ issuerRef (fst (Start 2 dicp)) = Some Sample.clusterIssuer
    /\ map (fun ev => Name (Meta (Object ev))) (reconcileChan (fst (Start 2 dicp)))
       = ["istiod-dynamic"]
    /\ issuerChangeChan (fst (Start 5 dicp)) = [].
Proof.
  intros dicp Hnew. injection Hnew as <-. repeat split.
Qed.

(** * Further properties *)

(** ** Notifications in sequence *)

Section Notifications.

Context {Client : Type}.

Implicit Types (dicp : DynamicIstiodCertProvisioner Client)
               (update : option ObjectReference)
               (updates : list (option ObjectReference)).




Lemma handleNewIssuer_all_frame dicp updates :
  opts (fold_left handleNewIssuer updates dicp) = opts dicp
  /\ initialIssuerRef (fold_left handleNewIssuer updates dicp) = initialIssuerRef dicp
  /\ trustDomain (fold_left handleNewIssuer updates dicp) = trustDomain dicp.
Proof.
  revert dicp.
  induction updates as [|u us IH]; intros dicp; cbn [fold_left]; [now repeat split|].
  destruct (IH (handleNewIssuer dicp u)) as (-> & -> & ->).
  destruct (handleNewIssuer_frame dicp u) as (_ & -> & -> & _ & ->).
  now repeat split.
Qed.

Lemma Start_drained (received : nat) dicp :
  issuerChangeChan dicp = [] -> Start received dicp = (dicp, None).
Proof. intros Hempty. destruct received; cbn [Start]; now rewrite ?Hempty. Qed.

End Notifications.


(** X2 ([Start]): taking [n] notifications and then [m] more is taking
    [n + m] at once: a loop that is stopped and started again on what it
    left continues where it stopped. *)
Theorem Start_resumes :
  forall (Client : Type) (n m : nat) (dicp : DynamicIstiodCertProvisioner Client),
    Start (n + m) dicp = Start m (fst (Start n dicp)).
Proof.
  intros Client n m.
  induction n as [|n IH]; intros dicp; cbn [Nat.add Start]; [reflexivity|].
  destruct (issuerChangeChan dicp) as [|u pending] eqn:Hchan.
  - cbn [fst]. now rewrite Start_drained.
  - apply IH.
Qed.

(** X3 ([handleNewIssuer]): after a sequence of notifications the active
    reference depends on the last one alone: it is the last update, or the
    initial reference (absent or not) when the last update is absent. *)
Theorem handleNewIssuer_last_notification_wins :
  forall (Client : Type) (dicp : DynamicIstiodCertProvisioner Client)
         (updates : list (option ObjectReference)) (last : option ObjectReference),
    issuerRef (fold_left handleNewIssuer (updates ++ [last]) dicp)
    = match last with
      | Some u => Some u
      | None => initialIssuerRef dicp
      end.
Proof.
  intros Client dicp updates last.
  rewrite fold_left_app. cbn [fold_left].
  rewrite handleNewIssuer_issuerRef.
  destruct last; [reflexivity|].
  apply handleNewIssuer_all_frame.
Qed.

(** X4 ([handleNewIssuer]): a sequence of notifications sends one event per
    notification, except for the absent ones when an initial reference
    exists, which send none; every event sent names the managed certificate
    and events already on the channel stay in front. *)
Theorem handleNewIssuer_trigger_count :
  forall (Client : Type) (dicp : DynamicIstiodCertProvisioner Client)
         (updates : list (option ObjectReference)),
    reconcileChan (fold_left handleNewIssuer updates dicp)
    = reconcileChan dicp
      ++ repeat (managedEvent dicp) (length (filter (triggers dicp) updates)).
Proof.
  intros Client dicp updates. revert dicp.
  induction updates as [|u us IH]; intros dicp; cbn [fold_left filter].
  - cbn. now rewrite app_nil_r.
  - rewrite IH.
    assert (Hev : managedEvent (handleNewIssuer dicp u) = managedEvent dicp).
    { unfold managedEvent.
      now destruct (handleNewIssuer_frame dicp u) as (_ & -> & _). }
    assert (Htr : forall v, triggers (handleNewIssuer dicp u) v = triggers dicp v).
    { intros v. unfold triggers.
      now destruct (handleNewIssuer_frame dicp u) as (_ & _ & -> & _). }
    rewrite Hev, (filter_ext _ _ Htr).
    unfold triggers at 2, handleNewIssuer.
    destruct u, (initialIssuerRef dicp); cbn [reconcileChan setIssuerRef send opts];
      cbn [length repeat]; rewrite <- ?app_assoc; reflexivity.
Qed.

(** ** The loop and the dispatcher *)

Section Dispatcher.

Context {Client : Type}.

Implicit Types (dicp : DynamicIstiodCertProvisioner Client)
               (update : option ObjectReference).






End Dispatcher.


(** With the sample notifier, whose first notification triggers and whose
    second does not: a dispatcher that accepts nothing keeps the loop in its
    first send, the new issuer already active; one that accepts one event
    lets the loop return. *)
Example StartOn_sample :
  forall dicp : DynamicIstiodCertProvisioner FakeCertificates,
    New fakeNewForConfig true Sample.options Sample.notifier "cluster.local" = inl dicp ->
    snd (StartOn 0 2 dicp) = StartBlocked
    /\ issuerRef (fst (StartOn 0 2 dicp)) = Some Sample.otherIssuer
    /\ reconcileChan (fst (StartOn 0 2 dicp)) = []
    /\ StartOn 1 2 dicp = (fst (Start 2 dicp), StartReturned None).
Proof.
  intros dicp Hnew. injection Hnew as <-. repeat split.
Qed.

(** X5 ([handleNewIssuer], [Reconcile]): without an initial reference an
    absent update is passed on like any other: it clears the active
    reference and sends one event for the managed certificate; the reconcile
    that follows finds no issuer, calls the client not at all and succeeds. *)
Theorem handleNewIssuer_absent_without_initial :
  forall (Client : Type) (I : CertificateInterface Client)
         (dicp : DynamicIstiodCertProvisioner Client) (req : Request),
    initialIssuerRef dicp = None ->
    issuerRef (handleNewIssuer dicp None) = None
    /\ reconcileChan (handleNewIssuer dicp None) = reconcileChan dicp ++ [managedEvent dicp]
    /\ storeCalls (handleNewIssuer dicp None) req = []
    /\ Reconcile (handleNewIssuer dicp None) req
       = (handleNewIssuer dicp None, (zeroResult, None)).
Proof.
  intros Client I dicp req Hini.
  assert (Href : issuerRef (handleNewIssuer dicp None) = None).
  { now rewrite handleNewIssuer_issuerRef. }
  split; [exact Href|]. split.
  - unfold handleNewIssuer. now rewrite Hini.
  - split.
    + exact (storeCalls_inactive _ req Href).
    + exact (Reconcile_inactive _ req Href).
Qed.

Lemma handleNewIssuer_absent_without_initial_witness :
  let dicp :=
    mkDICP Sample.storeWithCert Sample.options None (Some Sample.otherIssuer)
           [] [] "cluster.local" in
  issuerRef (handleNewIssuer dicp None) = None
  /\ length (reconcileChan (handleNewIssuer dicp None)) = 1
  /\ storeCalls (handleNewIssuer dicp None) Sample.request = [].
Proof.
  intros dicp.
  pose proof (handleNewIssuer_absent_without_initial
                FakeCertificates _ dicp Sample.request eq_refl)
    as (Href & Hchan & Hcalls & _).
  split; [exact Href|]. split; [|exact Hcalls].
  exact (f_equal (@length GenericEvent) Hchan).
Defined.

(** X6 ([AddControllersToManager]): whatever object a watch event or a
    channel event carries, the only request the two registered functions let
    through is the one for the configured certificate name and namespace;
    the channel's map function gives that request for every object, and the
    event that [handleNewIssuer] sends is accepted by the watch predicate
    too. *)
Theorem enqueued_requests_are_managed :
  forall (Client : Type) (dicp : DynamicIstiodCertProvisioner Client)
         (obj : Certificate),
    (forall req, In req (watchRequests dicp obj ++ channelMapFunc dicp obj) ->
                 req = managedRequest dicp)
    /\ channelMapFunc dicp obj = [managedRequest dicp]
    /\ watchRequests dicp (Object (managedEvent dicp)) = [managedRequest dicp].
Proof.
  intros Client dicp obj. split; [|split].
  - intros req Hin. apply in_app_or in Hin. destruct Hin as [Hin|Hin].
    + unfold watchRequests in Hin.
      destruct (watchPredicate dicp obj) eqn:Hp; [|contradiction].
      apply watchPredicate_spec in Hp. destruct Hp as [Hn Hns].
      destruct Hin as [<-|[]]. unfold managedRequest. now rewrite Hn, Hns.
    + destruct Hin as [<-|[]]. reflexivity.
  - reflexivity.
  - unfold watchRequests, watchPredicate, managedEvent.
    cbn [Object Meta Name Namespace]. now rewrite !String.eqb_refl.
Qed.

Lemma enqueued_requests_are_managed_witness :
  let dicp := Sample.provisioner Sample.emptyStore None in
  watchRequests dicp Sample.staleCert = [Sample.request]
  /\ Sample.request = managedRequest dicp.
Proof.
  intros dicp. split; [reflexivity|].
  exact (proj1 (enqueued_requests_are_managed FakeCertificates dicp Sample.staleCert)
           Sample.request (or_introl eq_refl)).
Defined.

(** X7 ([handleNewIssuer], [Reconcile]): after any notifications that end
    with an issuer [u], the reconcile of a request that came through the
    channel fetches the configured certificate name, and every certificate
    it writes carries [u] as its issuer and the SPIFFE URI of the configured
    namespace, whichever notification had sent the trigger. *)
Theorem issuer_change_reaches_certificate :
  forall (Client : Type) (I : CertificateInterface Client)
         (dicp : DynamicIstiodCertProvisioner Client)
         (updates : list (option ObjectReference)) (u : ObjectReference)
         (obj : Certificate) (req : Request),
    let dicp' := fold_left handleNewIssuer (updates ++ [Some u]) dicp in
    In req (channelMapFunc dicp' obj) ->
    hd_error (storeCalls dicp' req) = Some (CallGet (CertificateName (opts dicp)))
    /\ forall call cert,
         In call (storeCalls dicp' req) -> written call = Some cert ->
         IssuerRef (Spec cert) = u
         /\ URIs (Spec cert)
            = [spiffeURI (trustDomain dicp) (CertificateNamespace (opts dicp))].
Proof.
  intros Client I dicp updates u obj req dicp' Hreq.
  assert (Href : issuerRef dicp' = Some u).
  { unfold dicp'. rewrite fold_left_app. cbn [fold_left].
    now rewrite handleNewIssuer_issuerRef. }
  destruct (handleNewIssuer_all_frame dicp (updates ++ [Some u])) as (Ho & _ & Ht).
  fold dicp' in Ho, Ht.
  destruct Hreq as [<-|[]]. rewrite Ho.
  split.
  - rewrite (storeCalls_active dicp' _ u Href).
    cbn [ReqName].
    destruct (snd (Get _ _)) as [c|err]; [|destruct (IsNotFound err)]; reflexivity.
  - intros call cert Hin Hw.
    destruct (written_spec dicp' _ call cert Hin Hw) as (ref & Href' & ->).
    rewrite Href in Href'. injection Href' as <-.
    cbn [desiredSpecOf IssuerRef URIs ReqNamespace]. now rewrite Ht.
Qed.

Lemma issuer_change_reaches_certificate_witness :
  let dicp :=
    fold_left handleNewIssuer [Some Sample.clusterIssuer; None; Some Sample.otherIssuer]
              (Sample.provisioner Sample.emptyStore None) in
  hd_error (storeCalls dicp Sample.request) = Some (CallGet "istiod-dynamic").
Proof.
  intros dicp.
  exact (proj1 (issuer_change_reaches_certificate
                  FakeCertificates _ (Sample.provisioner Sample.emptyStore None)
                  [Some Sample.clusterIssuer; None] Sample.otherIssuer
                  Sample.staleCert Sample.request (or_introl eq_refl))).
Defined.

(** ** Reconcile and the shared state *)

Section SharedState.

Context {Client : Type} `{CertificateInterface Client}.

Implicit Types (dicp : DynamicIstiodCertProvisioner Client).

Lemma setClient_same dicp : setClient dicp (certManagerClient dicp) = dicp.
Proof. now destruct dicp. Qed.

Lemma setClient_twice dicp (c1 c2 : Client) :
  setClient (setClient dicp c1) c2 = setClient dicp c2.
Proof. reflexivity. Qed.

Lemma handleNewIssuer_client dicp (update : option ObjectReference) (c : Client) :
  handleNewIssuer (setClient dicp c) update = setClient (handleNewIssuer dicp update) c.
Proof.
  unfold handleNewIssuer. cbn [initialIssuerRef setClient].
  destruct update, (initialIssuerRef dicp); reflexivity.
Qed.

(** [Reconcile] returns the zero result and the provisioner with another
    client. *)
Lemma Reconcile_shape dicp (req : Request) :
  exists (client : Client) (err : option error),
    Reconcile dicp req = (setClient dicp client, (zeroResult, err)).
Proof.
  destruct (issuerRef dicp) as [ref|] eqn:Href.
  - rewrite (Reconcile_active dicp req ref Href). cbv zeta.
    destruct (snd (Get (certManagerClient dicp) (ReqName req))) as [cert|err];
      [|destruct (IsNotFound err)]; eexists; eexists; reflexivity.
  - rewrite (Reconcile_inactive dicp req Href).
    exists (certManagerClient dicp), None. now rewrite setClient_same.
Qed.

End SharedState.

(** X8 ([Reconcile]): there is no comparison of the fetched certificate with
    the desired one: when the fetched specification already is the desired
    one, the update is issued all the same, and what it sends is the fetched
    certificate as it was fetched; the reconcile then succeeds when that
    update succeeds and fails with the update's error when it fails. *)
Theorem Reconcile_updates_converged_certificate :
  forall (Client : Type) (I : CertificateInterface Client)
         (dicp : DynamicIstiodCertProvisioner Client) (req : Request)
         (ref : ObjectReference) (fetched : Certificate),
    issuerRef dicp = Some ref ->
    snd (Get (certManagerClient dicp) (ReqName req)) = inl fetched ->
    Spec fetched = desiredSpecOf ref (opts dicp) (trustDomain dicp) (ReqNamespace req) ->
    storeCalls dicp req = [CallGet (ReqName req); CallUpdate fetched]
    /\ snd (Reconcile dicp req)
       = (zeroResult,
          match snd (Update (fst (Get (certManagerClient dicp) (ReqName req))) fetched) with
          | inl _ => None
          | inr updateErr => Some updateErr
          end).
Proof.
  intros Client I dicp req ref fetched Href Hget Hspec.
  rewrite (storeCalls_active dicp req ref Href), (Reconcile_active dicp req ref Href).
  cbv zeta. rewrite Hget, <- Hspec.
  assert (Hsame : setSpec fetched (Spec fetched) = fetched) by now destruct fetched.
  rewrite Hsame. split; [reflexivity|].
  cbn [snd]. now destruct (snd (Update _ fetched)).
Qed.

Lemma Reconcile_updates_converged_certificate_witness :
  let converged :=
    certManagerClient
      (fst (Reconcile (Sample.provisioner Sample.emptyStore (Some Sample.clusterIssuer))
                      Sample.request)) in
  let cert :=
    newCert (Sample.provisioner Sample.emptyStore (Some Sample.clusterIssuer))
            Sample.request Sample.clusterIssuer in
  let dicp := Sample.provisioner converged (Some Sample.clusterIssuer) in
  let refused := Sample.readOnlyProvisioner converged (Some Sample.clusterIssuer) in
  (storeCalls dicp Sample.request = [CallGet "istiod-dynamic"; CallUpdate cert]
   /\ snd (Reconcile dicp Sample.request) = (zeroResult, None))
  /\ (storeCalls refused Sample.request = [CallGet "istiod-dynamic"; CallUpdate cert]
      /\ snd (Reconcile refused Sample.request)
         = (zeroResult,
            Some (StatusError "Forbidden" 403 "certificates is forbidden"))).
Proof.
  intros converged cert dicp refused. split.
  - exact (Reconcile_updates_converged_certificate
             FakeCertificates _ dicp Sample.request Sample.clusterIssuer cert
             eq_refl eq_refl eq_refl).
  - exact (Reconcile_updates_converged_certificate
             (ReadOnly FakeCertificates) _ refused Sample.request
             Sample.clusterIssuer cert eq_refl eq_refl eq_refl).
Defined.

(** X9 ([Reconcile]): in every path the result is the zero result, so no
    requeue is ever asked for, and nothing of the provisioner changes but
    the client: not the active or the initial reference, not the options,
    and nothing is sent on the reconcile channel. *)
Theorem Reconcile_never_requeues :
  forall (Client : Type) (I : CertificateInterface Client)
         (dicp : DynamicIstiodCertProvisioner Client) (req : Request),
    fst (snd (Reconcile dicp req)) = {| Requeue := false; RequeueAfter := 0 |}
    /\ fst (Reconcile dicp req)
       = setClient dicp (certManagerClient (fst (Reconcile dicp req)))
    /\ reconcileChan (fst (Reconcile dicp req)) = reconcileChan dicp
    /\ issuerRef (fst (Reconcile dicp req)) = issuerRef dicp.
Proof.
  intros Client I dicp req.
  destruct (Reconcile_shape dicp req) as (client & err & ->).
  repeat split.
Qed.

(** X10 ([handleNewIssuer], [Reconcile]): in any interleaving of
    notifications and reconciles, the reconciles leave no trace in the
    provisioner but in its client: the state after the run is the state
    after its notifications alone, with the client of the run.  So the
    active reference, the options, the initial reference and the events
    sent are those of the notifications alone. *)
Theorem run_guard_ignores_reconciles :
  forall (Client : Type) (I : CertificateInterface Client)
         (ops : list Op) (dicp : DynamicIstiodCertProvisioner Client),
    run ops dicp
    = setClient (fold_left handleNewIssuer (notificationsOf ops) dicp)
                (certManagerClient (run ops dicp)).
Proof.
  intros Client I ops dicp.
  induction ops as [|op ops IH] using rev_ind.
  - cbn. now rewrite setClient_same.
  - unfold run in *. rewrite fold_left_app. cbn [fold_left].
    unfold notificationsOf in *. rewrite flat_map_app, fold_left_app.
    cbn [flat_map]. rewrite app_nil_r.
    set (after := fold_left step ops dicp) in *.
    set (guard := fold_left handleNewIssuer _ dicp) in *.
    clearbody after guard.
    remember (certManagerClient after) as c eqn:Hc. clear Hc.
    subst after.
    destruct op as [update|req]; cbn [step fold_left].
    + now rewrite handleNewIssuer_client.
    + destruct (Reconcile_shape (setClient guard c) req) as (client & err & ->).
      reflexivity.
Qed.

Example run_sample :
  let dicp :=
    run [OpReconcile Sample.request; OpIssuer (Some Sample.otherIssuer);
         OpReconcile Sample.request; OpIssuer None]
        (Sample.provisioner Sample.emptyStore (Some Sample.clusterIssuer)) in
  issuerRef dicp = Some Sample.clusterIssuer
  /\ length (reconcileChan dicp) = 1
  /\ map (fun cert => IssuerRef (Spec cert)) (fakeObjects (certManagerClient dicp))
     = [Sample.otherIssuer].
Proof. repeat split. Qed.

(** ** Construction *)

(** A client that cannot be built leaves no provisioner, and the error
    quotes the cause. *)
Example New_fails :
  New (Client := FakeCertificates) fakeNewForConfig false
      Sample.options Sample.notifier "cluster.local"
  = inr (errorString "failed to build cert-manager client: invalid configuration").
Proof. reflexivity. Qed.

(** ** Collisions among the DNS names *)

Lemma append_length (a b : string) :
  String.length (a +++ b) = String.length a + String.length b.
Proof. induction a as [|c a IH]; cbn; [reflexivity | now rewrite IH]. Qed.

Lemma append_cancel_r (a b x : string) : a +++ x = b +++ x -> a = b.
Proof.
  revert b.
  induction a as [|c a IH]; intros [|d b] Heq; cbn in Heq.
  - reflexivity.
  - apply (f_equal String.length) in Heq. cbn in Heq.
    rewrite append_length in Heq. lia.
  - apply (f_equal String.length) in Heq. cbn in Heq.
    rewrite append_length in Heq. lia.
  - injection Heq as -> Heq. f_equal. now apply IH.
Qed.

(** Two revisions have the same DNS name only when they are equal or are
    "default" and the empty revision. *)
Lemma dnsNameOfRevision_collision (ns r1 r2 : string) :
  dnsNameOfRevision ns r1 = dnsNameOfRevision ns r2 ->
  r1 = r2 \/ (r1 = "default" /\ r2 = "") \/ (r1 = "" /\ r2 = "default").
Proof.
  unfold dnsNameOfRevision.
  destruct (String.eqb_spec r1 "default") as [->|H1],
           (String.eqb_spec r2 "default") as [->|H2]; intros Heq.
  - now left.
  - right. left. split; [reflexivity|].
    cbn in Heq. injection Heq as Heq.
    symmetry. apply (append_cancel_r "" r2 ("." +++ ns +++ ".svc")).
    exact Heq.
  - right. right. split; [|reflexivity].
    cbn in Heq. injection Heq as Heq.
    apply (append_cancel_r r1 "" ("." +++ ns +++ ".svc")).
    exact Heq.
  - left. cbn in Heq. injection Heq as Heq.
    now apply (append_cancel_r r1 r2 ("." +++ ns +++ ".svc")).
Qed.

Lemma NoDup_map_in {A B : Type} (f : A -> B) (l : list A) :
  (forall x y, In x l -> In y l -> f x = f y -> x = y) ->
  NoDup l -> NoDup (map f l).
Proof.
  intros Hinj Hnodup.
  induction Hnodup as [|x l Hx Hl IH]; cbn [map]; constructor.
  - rewrite in_map_iff. intros (y & Heq & Hy).
    apply Hx. rewrite (Hinj x y); auto using in_eq, in_cons.
  - apply IH. intros a b Ha Hb. apply Hinj; now right.
Qed.

Lemma dnsNameOfRevision_empty (ns : string) :
  dnsNameOfRevision ns "" = dnsNameOfRevision ns "default".
Proof. reflexivity. Qed.

(** X12 ([makeDNSNamesFromRevisions]): the common name is one of the DNS
    names exactly when the list of revisions is empty or holds "default" or
    the empty revision, whose name is the one of "default". *)
Theorem commonName_among_dnsNames :
  forall (ns : string) (revisions : list string),
    In (fst (makeDNSNamesFromRevisions ns revisions))
       (snd (makeDNSNamesFromRevisions ns revisions))
    <-> revisions = [] \/ In "default" revisions \/ In "" revisions.
Proof.
  intros ns revisions.
  rewrite makeDNSNamesFromRevisions_eq. cbn [fst snd].
  change ("istiod." +++ ns +++ ".svc") with (dnsNameOfRevision ns "default").
  rewrite in_map_iff. split.
  - intros (r & Heq & Hin).
    destruct revisions as [|r0 rs]; [now left|]. right.
    cbn [revisionsOrDefault] in Hin.
    destruct (dnsNameOfRevision_collision ns r "default" Heq)
      as [->|[[-> _]|[-> _]]]; auto.
  - intros [->|[Hin|Hin]].
    + exists "default". split; [reflexivity | now left].
    + exists "default". split; [reflexivity|].
      destruct revisions; [contradiction | exact Hin].
    + exists "". split; [reflexivity|].
      destruct revisions; [contradiction | exact Hin].
Qed.

(** X13 ([makeDNSNamesFromRevisions]): revisions without repetition give
    DNS names without repetition, unless "default" and the empty revision
    are both among them. *)
Theorem distinct_revisions_distinct_dnsNames :
  forall (ns : string) (revisions : list string),
    NoDup revisions ->
    ~ (In "default" revisions /\ In "" revisions) ->
    NoDup (snd (makeDNSNamesFromRevisions ns revisions)).
Proof.
  intros ns revisions Hnodup Hboth.
  rewrite makeDNSNamesFromRevisions_eq. cbn [snd].
  destruct revisions as [|r0 rs]; cbn [revisionsOrDefault].
  - cbn. constructor; [intros [] | constructor].
  - apply NoDup_map_in; [|exact Hnodup].
    intros r1 r2 Hin1 Hin2 Heq.
    destruct (dnsNameOfRevision_collision ns r1 r2 Heq)
      as [Hsame|[[-> ->]|[-> ->]]]; [exact Hsame | | ]; exfalso; auto.
Qed.

Lemma distinct_revisions_distinct_dnsNames_witness :
  NoDup (snd (makeDNSNamesFromRevisions "istio-system" ["default"; "canary"; "1-20"])).
Proof.
  apply distinct_revisions_distinct_dnsNames.
  - repeat constructor; cbn; intuition discriminate.
  - intros [_ Hin]. cbn in Hin. intuition discriminate.
Defined.

(** The exception is real: "default" and the empty revision give one name
    twice. *)
Example default_and_empty_revision_collide :
  snd (makeDNSNamesFromRevisions "istio-system" ["default"; ""])
  = ["istiod.istio-system.svc"; "istiod.istio-system.svc"].
Proof. reflexivity. Qed.

Lemma commonName_among_dnsNames_witness :
  In (fst (makeDNSNamesFromRevisions "foo" ["canary"; ""]))
     (snd (makeDNSNamesFromRevisions "foo" ["canary"; ""]))
  /\ ~ In (fst (makeDNSNamesFromRevisions "foo" ["canary"]))
          (snd (makeDNSNamesFromRevisions "foo" ["canary"])).
Proof.
  split.
  - apply (proj2 (commonName_among_dnsNames "foo" ["canary"; ""])).
    right. right. right. left. reflexivity.
  - intros Hin.
    apply (proj1 (commonName_among_dnsNames "foo" ["canary"])) in Hin.
    destruct Hin as [Hnil|[Hin|Hin]]; [discriminate Hnil | | ];
      cbn in Hin; destruct Hin as [Heq|[]]; discriminate Heq.
Defined.
